(** * GST PRO: the purchase and sales report processor of [app.py]

    A shallow embedding of [load_data], [process_file] and the button
    handler of [app.py], together with the part of pandas and Streamlit
    they call, and the properties of the extraction pipeline.

    Conventions.
    - A Python [str] is a [string] with one [ascii] per code point
      (code points below 256).
    - A [DataFrame] is an ordered list of labelled columns over a row
      index.  A column label is the header cell the reader found: text,
      or a number ([read_excel] keeps a numeric header cell as a
      number).  Labels may repeat, as in pandas: selecting a label
      selects every column that carries it.
    - The pandas calls behave as in pandas 1 and 2: [astype(str)] turns
      a missing value into its text, [insert] with a range places the
      values by position, [dropna] tests every column its subset labels.
      The [.str] accessor of an index exists when a label is text and
      raises [AttributeError] when the labels are numbers only; the
      labels it cannot strip become the missing label NaN.  A table
      without columns has a numeric index, as [DataFrame()] has in
      pandas 2.
    - The workbook writer behind [to_excel] (openpyxl) is a parameter,
      as the readers are: it accepts a table or raises.
    - DataFrames are mutable objects: they live in a heap and the
      program passes references to them.  Streamlit calls append to the
      page. *)

From stdpp Require Import base list strings gmap pretty.

Open Scope string_scope.
Open Scope list_scope.
Open Scope nat_scope.

(** ** Python strings *)

Module PyStr.

(** [str.isspace] on the code points below 256. *)
Definition isspace (a : Ascii.ascii) : bool :=
  let n := Ascii.nat_of_ascii a in
  bool_decide (n ∈ [9; 10; 11; 12; 13; 28; 29; 30; 31; 32; 133; 160]).

Fixpoint lstrip (s : string) : string :=
  match s with
  | EmptyString => EmptyString
  | String a s' => if isspace a then lstrip s' else s
  end.

Fixpoint rstrip (s : string) : string :=
  match s with
  | EmptyString => EmptyString
  | String a s' =>
      match rstrip s' with
      | EmptyString => if isspace a then EmptyString else String a EmptyString
      | t => String a t
      end
  end.

(** [s.strip()] *)
Definition strip (s : string) : string := rstrip (lstrip s).

(** [s.endswith(suffix)] *)
Definition endswith (s suffix : string) : bool :=
  String.prefix (String.rev suffix) (String.rev s).

(** Truth value of a [str]: only the empty string is false. *)
Definition truthy (s : string) : bool :=
  match s with EmptyString => false | String _ _ => true end.

(** No leading white space. *)
Definition clean_head (s : string) : Prop :=
  match s with
  | EmptyString => True
  | String a _ => isspace a = false
  end.

(** Only white space. *)
Fixpoint blank (s : string) : bool :=
  match s with
  | EmptyString => true
  | String a s' => isspace a && blank s'
  end.

(** No trailing white space. *)
Fixpoint clean_last (s : string) : Prop :=
  match s with
  | EmptyString => True
  | String a s' =>
      match s' with
      | EmptyString => isspace a = false
      | String _ _ => clean_last s'
      end
  end.

(** [t] is [s] without its leading and trailing white space. *)
Definition trimmed (s t : string) : Prop :=
  ∃ pre post,
    s = pre +:+ t +:+ post
    ∧ blank pre = true ∧ blank post = true
    ∧ clean_head t ∧ clean_last t.
End PyStr.

(** ** pandas values *)

(** A cell of a table.  [NaN] is the missing-value marker the readers
    produce for an empty field, [NaT] the missing timestamp and
    [NoneCell] Python's [None]; [Obj] stands for any other scalar that is
    not missing (a float, a boolean, a timestamp), carried by the text
    [str] gives for it. *)
Inductive Cell : Type :=
| NaN
| NaT
| NoneCell
| Int (z : Z)
| Str (s : string)
| Obj (repr : string).

#[global] Instance Cell_eq_dec : EqDecision Cell.
Proof. solve_decision. Defined.

#[global] Instance Cell_inhabited : Inhabited Cell := populate NaN.

(** [pd.isna] *)
Definition isna (c : Cell) : bool :=
  match c with NaN | NaT | NoneCell => true | _ => false end.

(** [str(c)] *)
Definition py_str (c : Cell) : string :=
  match c with
  | NaN => "nan"
  | NaT => "NaT"
  | NoneCell => "None"
  | Int z => pretty z
  | Str s => s
  | Obj repr => repr
  end.

Abbreviation Series := (list Cell).

(** A column label: text, or a number carried by its [repr] (an
    integer, a float, the missing label NaN). *)
Inductive Label : Type :=
| Text (s : string)
| Number (repr : string).

#[global] Instance Label_eq_dec : EqDecision Label.
Proof. solve_decision. Defined.

#[global] Instance Label_inhabited : Inhabited Label := populate (Number "nan").

Definition is_text (l : Label) : bool :=
  match l with Text _ => true | Number _ => false end.

Record DataFrame : Type := mkDataFrame {
  df_index : list nat;
  df_data : list (Label * Series)
}.

#[global] Instance DataFrame_eq_dec : EqDecision DataFrame.
Proof. solve_decision. Defined.

(** Python exceptions: the class name and [str(e)]. *)
Inductive PyExn : Type := Exn (cls msg : string).

Definition exn_str (e : PyExn) : string :=
  match e with Exn _ msg => msg end.

Definition KeyError (key : string) : PyExn := Exn "KeyError" ("'" +:+ key +:+ "'").
Definition ValueError (msg : string) : PyExn := Exn "ValueError" msg.
Definition IndexError (msg : string) : PyExn := Exn "IndexError" msg.
Definition AttributeError (msg : string) : PyExn := Exn "AttributeError" msg.

Module pd.

(** [df.columns] *)
Definition columns (df : DataFrame) : list Label := (df_data df).*1.

(** [len(df)] *)
Definition len (df : DataFrame) : nat := length (df_index df).

(** The text of a label, if it is text. *)
Definition label_text (l : Label) : option string :=
  match l with Text s => Some s | Number _ => None end.

(** The text labels of a table, in order. *)
Definition texts (df : DataFrame) : list string := omap label_text (columns df).

(** Some label of the table is text. *)
Definition has_text (df : DataFrame) : bool := existsb is_text (columns df).

Definition accessor_error : PyExn :=
  AttributeError "Can only use .str accessor with string values!".

(** [index.str]: the accessor is refused when the inferred type of the
    labels is numeric, that is, when no label is text. *)
Definition str_accessor (labels : list Label) : PyExn + list Label :=
  if existsb is_text labels then inr labels else inl accessor_error.

(** [.strip()] under the accessor, on one label: a label that is not
    text becomes NaN. *)
Definition str_strip (l : Label) : Label :=
  match l with
  | Text s => Text (PyStr.strip s)
  | Number _ => Number "nan"
  end.

(** [df.columns = labels.str.strip()], once the accessor is there. *)
Definition strip_columns (df : DataFrame) : DataFrame :=
  {| df_index := df_index df;
     df_data := prod_map str_strip id <$> df_data df |}.

(** The columns carrying label [key], in table order. *)
Definition labelled (key : string) (data : list (Label * Series))
  : list (Label * Series) :=
  filter (λ c, c.1 = Text key) data.

(** [df[keys]] for a list of labels: for each key every column that
    carries it; [KeyError] for a key no column carries. *)
Fixpoint take_labels (keys : list string) (data : list (Label * Series))
  : PyExn + list (Label * Series) :=
  match keys with
  | [] => inr []
  | k :: ks =>
      match labelled k data with
      | [] => inl (KeyError k)
      | cs =>
          match take_labels ks data with
          | inl e => inl e
          | inr rest => inr (cs ++ rest)
          end
      end
  end.

Definition getitem_list (df : DataFrame) (keys : list string)
  : PyExn + DataFrame :=
  match take_labels keys (df_data df) with
  | inl e => inl e
  | inr data => inr {| df_index := df_index df; df_data := data |}
  end.

(** Row [i] has no missing value in any of the columns [cs]. *)
Definition row_complete (cs : list Series) (i : nat) : bool :=
  forallb (λ col, match col !! i with
                  | Some c => negb (isna c)
                  | None => true
                  end) cs.

(** The rows [dropna(subset=...)] keeps, as a mask over row positions. *)
Definition keep_mask (df : DataFrame) (subset : list string) : list bool :=
  let cs := (filter (λ c, c.1 ∈ Text <$> subset) (df_data df)).*2 in
  row_complete cs <$> seq 0 (len df).

Fixpoint keep {A} (mask : list bool) (l : list A) : list A :=
  match mask, l with
  | b :: mask', x :: l' => if b then x :: keep mask' l' else keep mask' l'
  | _, _ => []
  end.

(** [df.dropna(subset=subset)] *)
Definition dropna (df : DataFrame) (subset : list string)
  : PyExn + DataFrame :=
  match list_find (λ k, Text k ∉ columns df) subset with
  | Some (_, k) => inl (KeyError k)
  | None =>
      let mask := keep_mask df subset in
      inr {| df_index := keep mask (df_index df);
             df_data := prod_map id (keep mask) <$> df_data df |}
  end.

(** A label under [mapper]: a key of the dictionary is replaced. *)
Definition renamed (mapper : gmap string string) (l : Label) : Label :=
  match l with
  | Text s => Text (default s (mapper !! s))
  | Number _ => l
  end.

(** [df.rename(columns=mapper)] *)
Definition rename (df : DataFrame) (mapper : gmap string string)
  : DataFrame :=
  {| df_index := df_index df;
     df_data := prod_map (renamed mapper) id <$> df_data df |}.

(** [df[key]]: the column carrying [key], or all of them when the
    label repeats. *)
Definition getitem (df : DataFrame) (key : string) : PyExn + list Series :=
  match labelled key (df_data df) with
  | [] => inl (KeyError key)
  | cs => inr cs.*2
  end.

(** [values.astype(str) + suffix] *)
Definition astype_str_add (values : list Series) (suffix : string)
  : list Series :=
  fmap (M := list) (λ c, Str (py_str c +:+ suffix)) <$> values.

Fixpoint assign (key : string) (values : list Series)
    (data : list (Label * Series)) : list (Label * Series) :=
  match data with
  | [] => []
  | (l, c) :: data' =>
      if decide (l = Text key) then
        match values with
        | v :: vs => (l, v) :: assign key vs data'
        | [] => (l, c) :: assign key [] data'
        end
      else (l, c) :: assign key values data'
  end.

(** [df[key] = values], for values computed from [df] itself (same
    row index): the columns carrying [key] are replaced in order; a
    new label is appended. *)
Definition setitem (df : DataFrame) (key : string) (values : list Series)
  : PyExn + DataFrame :=
  match labelled key (df_data df) with
  | [] =>
      match values with
      | [v] => inr {| df_index := df_index df;
                      df_data := df_data df ++ [(Text key, v)] |}
      | _ => inl (ValueError "Cannot set a DataFrame with multiple columns to a single column")
      end
  | cs =>
      if decide (length cs = length values) then
        inr {| df_index := df_index df;
               df_data := assign key values (df_data df) |}
      else inl (ValueError "Columns must be same length as key")
  end.

(** [range(start, stop)] as a column of integers *)
Definition range (start stop : nat) : Series :=
  (λ k, Int (Z.of_nat k)) <$> seq start (stop - start).

(** [df.insert(loc, column, value)] *)
Definition insert (df : DataFrame) (loc : nat) (column : string)
    (value : Series) : PyExn + DataFrame :=
  if decide (Text column ∈ columns df) then
    inl (ValueError ("cannot insert " +:+ column +:+ ", already exists"))
  else if decide (length (df_data df) < loc) then
    inl (IndexError "index out of bounds")
  else if decide (length value = len df) then
    inr {| df_index := df_index df;
           df_data := take loc (df_data df)
                      ++ (Text column, value) :: drop loc (df_data df) |}
  else inl (ValueError "Length of values does not match length of index").

(** [df.to_excel(writer, sheet_name=..., index=index)]: the rows of
    the sheet, the header first. *)
Definition sheet_row (index : bool) (df : DataFrame) (i : nat) : list Cell :=
  (if index then [Int (Z.of_nat (df_index df !!! i))] else [])
    ++ ((λ c, c.2 !!! i) <$> df_data df).

(** A label as a cell of the header row. *)
Definition header_cell (l : Label) : Cell :=
  match l with
  | Text s => Str s
  | Number repr => Obj repr
  end.

Definition to_excel (df : DataFrame) (index : bool) : list (list Cell) :=
  ((if index then [NaN] else []) ++ (header_cell <$> columns df))
    :: (sheet_row index df <$> seq 0 (len df)).

End pd.

(** ** The Python world: a heap of DataFrames and the Streamlit page *)

Abbreviation Sheet := (list (list Cell)).
Abbreviation Workbook := (list (string * list (list Cell))).

(** What Streamlit calls put on the page. *)
Inductive Element : Type :=
| Error (body : string)
| Warning (body : string)
| Success (body : string)
| Subheader (body : string)
| Dataframe (data : DataFrame) (hide_index : bool)
| DownloadButton (label : string) (data : Workbook) (file_name mime : string).

Definition ref := nat.

Record World : Type := mkWorld {
  heap : list DataFrame;
  page : list Element
}.

Inductive Outcome (A : Type) : Type :=
| Returned (a : A)
| Raised (e : PyExn).
Arguments Returned {A} a.
Arguments Raised {A} e.

Definition Py (A : Type) : Type := World → Outcome A * World.

#[global] Instance Py_ret : MRet Py := λ A a w, (Returned a, w).

#[global] Instance Py_bind : MBind Py := λ A B k m w,
  match m w with
  | (Returned a, w') => k a w'
  | (Raised e, w') => (Raised e, w')
  end.

Definition raise {A} (e : PyExn) : Py A := λ w, (Raised e, w).

(** [try: body except Exception as e: handler e] *)
Definition try_except {A} (body : Py A) (handler : PyExn → Py A) : Py A :=
  λ w, match body w with
       | (Returned a, w') => (Returned a, w')
       | (Raised e, w') => handler e w'
       end.

(** A pandas result becomes a return or a raise. *)
Definition lift {A} (r : PyExn + A) : Py A :=
  match r with inl e => raise e | inr a => mret a end.

(** A new object. *)
Definition alloc (d : DataFrame) : Py ref :=
  λ w, (Returned (length (heap w)), {| heap := heap w ++ [d]; page := page w |}).

Definition deref (r : ref) : Py DataFrame :=
  λ w, match heap w !! r with
       | Some d => (Returned d, w)
       | None => (Raised (Exn "ReferenceError" "no such object"), w)
       end.

(** Mutation of the object behind [r]. *)
Definition store (r : ref) (d : DataFrame) : Py unit :=
  λ w, (Returned (), {| heap := <[r := d]> (heap w); page := page w |}).

Definition show (e : Element) : Py unit :=
  λ w, (Returned (), {| heap := heap w; page := page w ++ [e] |}).

Module st.
Definition error (body : string) : Py unit := show (Error body).
Definition warning (body : string) : Py unit := show (Warning body).
Definition success (body : string) : Py unit := show (Success body).
Definition subheader (body : string) : Py unit := show (Subheader body).
Definition dataframe (r : ref) (hide_index : bool) : Py unit :=
  d ← deref r; show (Dataframe d hide_index).
Definition download_button (label : string) (data : Workbook)
    (file_name mime : string) : Py unit :=
  show (DownloadButton label data file_name mime).
End st.

(** pandas calls on references. *)
Module df.

(** [df.columns = df.columns.str.strip()]: the accessor may raise, and
    then nothing is assigned. *)
Definition strip_columns (r : ref) : Py unit :=
  d ← deref r;
  lift (pd.str_accessor (pd.columns d));;
  store r (pd.strip_columns d).

(** [df.columns] *)
Definition columns (r : ref) : Py (list Label) :=
  d ← deref r; mret (pd.columns d).

(** [df[[...]]] returns a new table. *)
Definition getitem_list (r : ref) (keys : list string) : Py ref :=
  d ← deref r; d' ← lift (pd.getitem_list d keys); alloc d'.

Definition copy (r : ref) : Py ref :=
  d ← deref r; alloc d.

(** [df.dropna(subset=..., inplace=True)] *)
Definition dropna_inplace (r : ref) (subset : list string) : Py unit :=
  d ← deref r; d' ← lift (pd.dropna d subset); store r d'.

Definition rename (r : ref) (mapper : gmap string string) : Py ref :=
  d ← deref r; alloc (pd.rename d mapper).

Definition getitem (r : ref) (key : string) : Py (list Series) :=
  d ← deref r; lift (pd.getitem d key).

Definition setitem (r : ref) (key : string) (values : list Series) : Py unit :=
  d ← deref r; d' ← lift (pd.setitem d key values); store r d'.

Definition len (r : ref) : Py nat :=
  d ← deref r; mret (pd.len d).

Definition insert (r : ref) (loc : nat) (column : string) (value : Series)
  : Py unit :=
  d ← deref r; d' ← lift (pd.insert d loc column value); store r d'.

(** [df.to_excel(writer, sheet_name=..., index=index)]: the sheet, or
    what the writer raises for a table it refuses. *)
Definition to_excel (refuses : DataFrame → option PyExn) (r : ref)
    (index : bool) : Py Sheet :=
  d ← deref r;
  match refuses d with
  | Some e => raise e
  | None => mret (pd.to_excel d index)
  end.

End df.

(** [d[key]] on a dict *)
Definition dict_getitem (d : gmap string string) (key : string) : Py string :=
  match d !! key with
  | Some v => mret v
  | None => raise (KeyError key)
  end.

(** ** [process_file] *)

(** The alias table, in its declared order. *)
Definition col_map : list (string * list string) :=
  [ ("Date", ["Invoice Date"; "Invoice date"]);
    ("Invoice No", ["Invoice No."; "Invoice Number"; "Voucher No."]);
    ("Party Name", ["Party Name"; "Receiver Name"]);
    ("Taxable Amount", ["Taxable value"; "Taxable Value"]);
    ("GST Rate", ["Rate"]) ].

Definition missing_column_message (file_type standard_name : string) : string :=
  "Error in " +:+ file_type +:+ " file: Could not find the '" +:+ standard_name
    +:+ "' column. Please check the file.".

(** [next((col for col in possible_names if col in columns), None)] *)
Definition first_present (possible_names : list string) (columns : list Label)
  : option string :=
  head (filter (λ col, Text col ∈ columns) possible_names).

(** The detection loop over [col_map.items()]; [None] is the early
    [return None].  [not found_name] holds for [None] and for the empty
    string. *)
Fixpoint find_columns (df : ref) (file_type : string)
    (items : list (string * list string)) (found_cols : gmap string string)
    : Py (option (gmap string string)) :=
  match items with
  | [] => mret (Some found_cols)
  | (standard_name, possible_names) :: items' =>
      df.strip_columns df;;
      columns ← df.columns df;
      let found_name := first_present possible_names columns in
      let missing :=
        st.error (missing_column_message file_type standard_name);;
        mret None in
      match found_name with
      | None => missing
      | Some col =>
          if PyStr.truthy col then
            find_columns df file_type items' (<[standard_name := col]> found_cols)
          else missing
      end
  end.

Definition process_file (df : option ref) (file_type : string)
  : Py (option ref) :=
  match df with
  | None => mret None
  | Some df =>
      found ← find_columns df file_type col_map ∅;
      match found with
      | None => mret None
      | Some found_cols =>
          c_date ← dict_getitem found_cols "Date";
          c_invoice ← dict_getitem found_cols "Invoice No";
          c_party ← dict_getitem found_cols "Party Name";
          c_taxable ← dict_getitem found_cols "Taxable Amount";
          c_rate ← dict_getitem found_cols "GST Rate";
          selected ← df.getitem_list df
            [c_date; c_invoice; c_party; c_taxable; c_rate];
          extracted_df ← df.copy selected;
          s_party ← dict_getitem found_cols "Party Name";
          s_taxable ← dict_getitem found_cols "Taxable Amount";
          df.dropna_inplace extracted_df [s_party; s_taxable];;
          k_date ← dict_getitem found_cols "Date";
          k_invoice ← dict_getitem found_cols "Invoice No";
          k_party ← dict_getitem found_cols "Party Name";
          k_taxable ← dict_getitem found_cols "Taxable Amount";
          k_rate ← dict_getitem found_cols "GST Rate";
          final_df ← df.rename extracted_df
            (<[k_rate := "GST Rate"]>
               (<[k_taxable := "Taxable Amount"]>
                  (<[k_party := "Party Name"]>
                     (<[k_invoice := "Invoice No"]>
                        (<[k_date := "Date"]> ∅)))));
          rate ← df.getitem final_df "GST Rate";
          df.setitem final_df "GST Rate" (pd.astype_str_add rate "%");;
          n ← df.len final_df;
          df.insert final_df 0 "S/N" (pd.range 1 (n + 1));;
          mret (Some final_df)
      end
  end.

(** ** [load_data] and the button handler *)

Record UploadedFile : Type := mkUploadedFile {
  name : string;
  getvalue : string
}.

Section App.

(** The pandas readers: [read_csv f skiprows] and
    [read_excel f skiprows engine] either raise or return the parsed
    table, the first row after the skipped ones being its header. *)
Variable read_csv : UploadedFile → nat → PyExn + DataFrame.
Variable read_excel : UploadedFile → nat → string → PyExn + DataFrame.

(** The workbook writer: what it raises for a table, if anything (a
    control character in a cell, more rows than a sheet holds). *)
Variable excel_refuses : DataFrame → option PyExn.

Definition read_error_message (file_name cause : string) : string :=
  "Error reading " +:+ file_name +:+ ": " +:+ cause
    +:+ ". Please ensure it is a valid file with data starting after row 8.".

(** What the reader chosen by the file name returns, if the name is
    recognised: both readers are called with [skiprows=8]. *)
Definition reading (f : UploadedFile) : option (PyExn + DataFrame) :=
  if PyStr.endswith (name f) ".csv" then Some (read_csv f 8)
  else if PyStr.endswith (name f) ".xls" || PyStr.endswith (name f) ".xlsx"
       then Some (read_excel f 8 "openpyxl")
       else None.

Definition load_data (uploaded_file : option UploadedFile) : Py (option ref) :=
  match uploaded_file with
  | None => mret None
  | Some f =>
      try_except
        (if PyStr.endswith (name f) ".csv" then
           d ← lift (read_csv f 8); r ← alloc d; mret (Some r)
         else if PyStr.endswith (name f) ".xls"
                 || PyStr.endswith (name f) ".xlsx" then
           d ← lift (read_excel f 8 "openpyxl"); r ← alloc d; mret (Some r)
         else mret None)
        (λ e, st.error (read_error_message (name f) (exn_str e));;
              mret None)
  end.

Definition xlsx_mime : string :=
  "application/vnd.openxmlformats-officedocument.spreadsheetml.sheet".

(** The texts of the page; their leading pictographs are left out. *)
Definition success_message : string :=
  "Both files processed successfully! Download your Excel file below.".
Definition download_label : string :=
  "Download Excel File (Purchase & Sales Sheets)".
Definition processing_failed : string :=
  "Processing failed. Please review the errors above.".
Definition upload_both : string :=
  "Please upload both the Purchase and Sales files before processing.".

(** The body of the button handler. *)
Definition on_click (purchase_file sales_file : option UploadedFile) : Py unit :=
  if bool_decide (is_Some purchase_file) && bool_decide (is_Some sales_file) then
    df_purchase ← load_data purchase_file;
    df_sales ← load_data sales_file;
    purchase_result_df ← process_file df_purchase "Purchase";
    sales_result_df ← process_file df_sales "Sales";
    match purchase_result_df, sales_result_df with
    | Some p, Some s =>
        sheet_p ← df.to_excel excel_refuses p false;
        sheet_s ← df.to_excel excel_refuses s false;
        let processed_data :=
          [("Purchase Data", sheet_p); ("Sales Data", sheet_s)] in
        st.success success_message;;
        st.subheader "Purchase Data Preview";;
        st.dataframe p true;;
        st.subheader "Sales Data Preview";;
        st.dataframe s true;;
        st.download_button download_label
          processed_data "Processed_Data.xlsx" xlsx_mime
    | _, _ => st.error processing_failed
    end
  else
    st.warning upload_both.

End App.

(** * Specification vocabulary *)

(** The loop of [find_columns] as a function of the trimmed labels: the
    first field without a usable alias, or the dictionary it builds. *)
Fixpoint resolve (columns : list Label) (items : list (string * list string))
    (found_cols : gmap string string) : string + gmap string string :=
  match items with
  | [] => inr found_cols
  | (standard_name, possible_names) :: items' =>
      match first_present possible_names columns with
      | None => inl standard_name
      | Some col =>
          if PyStr.truthy col then
            resolve columns items' (<[standard_name := col]> found_cols)
          else inl standard_name
      end
  end.

Definition after_detection (r : ref) (d : DataFrame) (w : World)
    (shown : list Element) : World :=
  {| heap := <[r := pd.strip_columns d]> (heap w); page := page w ++ shown |}.

(** Columns [cs] under one label. *)
Definition tagged (label : string) (cs : list Series) : list (Label * Series) :=
  (λ c, (Text label, c)) <$> cs.

(** Number of kept positions before position [j]. *)
Definition rank (mask : list bool) (j : nat) : nat :=
  length (filter (λ b, b = true) (take j mask)).

(** The cells of the columns of [d] whose trimmed label is [label]. *)
Definition source_cells (d : DataFrame) (label : string) : list Series :=
  (pd.labelled label (df_data (pd.strip_columns d))).*2.

(** The rows with no missing value in the columns trimmed to [party]
    or to [taxable], as a mask over the row positions of [d]. *)
Definition kept_rows (d : DataFrame) (party taxable : string) : list bool :=
  pd.row_complete (source_cells d party ++ source_cells d taxable)
    <$> seq 0 (pd.len d).

Definition percent (c : Cell) : Cell := Str (py_str c +:+ "%").

(** Where each alias of a field is looked for. *)
Definition found_in (d : DataFrame) (possible_names : list string)
    (col : string) : Prop :=
  first_present possible_names (pd.columns (pd.strip_columns d)) = Some col.

Record Resolved (d : DataFrame) (a_date a_invoice a_party a_taxable a_rate : string)
  : Prop := mkResolved {
  res_date : found_in d ["Invoice Date"; "Invoice date"] a_date;
  res_invoice :
    found_in d ["Invoice No."; "Invoice Number"; "Voucher No."] a_invoice;
  res_party : found_in d ["Party Name"; "Receiver Name"] a_party;
  res_taxable : found_in d ["Taxable value"; "Taxable Value"] a_taxable;
  res_rate : found_in d ["Rate"] a_rate
}.

Definition found_dict (a_date a_invoice a_party a_taxable a_rate : string)
  : gmap string string :=
  <["GST Rate" := a_rate]>
    (<["Taxable Amount" := a_taxable]>
       (<["Party Name" := a_party]>
          (<["Invoice No" := a_invoice]> (<["Date" := a_date]> ∅)))).

Definition rename_dict (a_date a_invoice a_party a_taxable a_rate : string)
  : gmap string string :=
  <[a_rate := "GST Rate"]>
    (<[a_taxable := "Taxable Amount"]>
       (<[a_party := "Party Name"]>
          (<[a_invoice := "Invoice No"]> (<[a_date := "Date"]> ∅)))).

Definition selected_table (d : DataFrame)
    (a_date a_invoice a_party a_taxable a_rate : string) : DataFrame :=
  {| df_index := df_index d;
     df_data := tagged a_date (source_cells d a_date)
                ++ tagged a_invoice (source_cells d a_invoice)
                ++ tagged a_party (source_cells d a_party)
                ++ tagged a_taxable (source_cells d a_taxable)
                ++ tagged a_rate (source_cells d a_rate) |}.

Definition dropped_table (d : DataFrame)
    (a_date a_invoice a_party a_taxable a_rate : string) : DataFrame :=
  let mask := kept_rows d a_party a_taxable in
  {| df_index := pd.keep mask (df_index d);
     df_data := tagged a_date (pd.keep mask <$> source_cells d a_date)
                ++ tagged a_invoice (pd.keep mask <$> source_cells d a_invoice)
                ++ tagged a_party (pd.keep mask <$> source_cells d a_party)
                ++ tagged a_taxable (pd.keep mask <$> source_cells d a_taxable)
                ++ tagged a_rate (pd.keep mask <$> source_cells d a_rate) |}.

Definition clean_body (d : DataFrame)
    (a_date a_invoice a_party a_taxable a_rate : string) (rate : list Series)
  : list (Label * Series) :=
  let mask := kept_rows d a_party a_taxable in
  tagged "Date" (pd.keep mask <$> source_cells d a_date)
  ++ tagged "Invoice No" (pd.keep mask <$> source_cells d a_invoice)
  ++ tagged "Party Name" (pd.keep mask <$> source_cells d a_party)
  ++ tagged "Taxable Amount" (pd.keep mask <$> source_cells d a_taxable)
  ++ tagged "GST Rate" rate.

Definition body_table (d : DataFrame)
    (a_date a_invoice a_party a_taxable a_rate : string) (rate : list Series)
  : DataFrame :=
  {| df_index := pd.keep (kept_rows d a_party a_taxable) (df_index d);
     df_data := clean_body d a_date a_invoice a_party a_taxable a_rate rate |}.

(** The table [process_file] returns once the aliases are resolved. *)
Definition clean_table (d : DataFrame)
    (a_date a_invoice a_party a_taxable a_rate : string) : DataFrame :=
  let mask := kept_rows d a_party a_taxable in
  let rows := pd.keep mask (df_index d) in
  {| df_index := rows;
     df_data :=
       (Text "S/N", pd.range 1 (length rows + 1))
         :: clean_body d a_date a_invoice a_party a_taxable a_rate
              (fmap (M := list) percent <$> (pd.keep mask <$> source_cells d a_rate)) |}.

(** The heap once [process_file] has returned a table for the object at
    [r]: the caller's table with trimmed labels, then the selection, the
    filtered copy and the result. *)
Definition heap_after (r : ref) (d : DataFrame) (h : list DataFrame)
    (a1 a2 a3 a4 a5 : string) : list DataFrame :=
  ((<[r := pd.strip_columns d]> h ++ [selected_table d a1 a2 a3 a4 a5])
     ++ [dropped_table d a1 a2 a3 a4 a5])
    ++ [clean_table d a1 a2 a3 a4 a5].

(** The text [a] is a label of [d] once the labels are trimmed: some
    text label of [d] is [a] between white space. *)
Definition present (d : DataFrame) (a : string) : Prop :=
  ∃ s, Text s ∈ pd.columns d ∧ PyStr.trimmed s a.

(** Every field has an alias among the trimmed labels of [d]. *)
Definition covered (d : DataFrame) : Prop :=
  ∀ field aliases, (field, aliases) ∈ col_map →
    ∃ a, a ∈ aliases ∧ Text a ∈ pd.str_strip <$> pd.columns d.

(** The table a run returned, if any. *)
Definition table_of (w : World) (o : option ref) : option DataFrame :=
  o ≫= λ r, heap w !! r.

Definition clean_columns : list string :=
  ["S/N"; "Date"; "Invoice No"; "Party Name"; "Taxable Amount"; "GST Rate"].

(** A reference held by the caller points into the heap. *)
Definition live (w : World) (o : option ref) : Prop :=
  ∀ r, o = Some r → r < length (heap w).


(** * Example tables and files *)

Definition purchase_report : DataFrame :=
  {| df_index := [0; 1; 2];
     df_data :=
       [ (Text " Invoice Date", [Str "2024-01-01"; Str "2024-01-02"; NaN]);
         (Text "Voucher No.", [Str "INV001"; Str "INV002"; Str "INV003"]);
         (Text "Receiver Name ", [Str "Acme Co"; NaN; Str "Bolt"]);
         (Text "Place", [Str "KA"; Str "MH"; Str "TN"]);
         (Text "Taxable value", [Int 1000; Int 250; Int 75]);
         (Text "Rate", [Int 18; Str "18"; NaN]) ] |}.

Definition caller_world : World := {| heap := [purchase_report]; page := [] |}.

(** A report without any invoice number column. *)
Definition short_report : DataFrame :=
  {| df_index := [0];
     df_data :=
       [ (Text "Invoice Date ", [Str "2024-01-01"]);
         (Text "Taxable value", [Int 1000]);
         (Text "Rate", [Int 18]) ] |}.

Definition short_world : World := {| heap := [short_report]; page := [] |}.

(** A report whose header has the labels [Party Name] and [Party Name]
    followed by a blank: two different labels until they are trimmed. *)
Definition duplicate_report : DataFrame :=
  {| df_index := [0; 1];
     df_data :=
       [ (Text "Invoice Date", [Str "2024-01-01"; Str "2024-01-02"]);
         (Text "Invoice No.", [Str "INV001"; Str "INV002"]);
         (Text "Party Name", [Str "Acme Co"; Str "Bolt"]);
         (Text "Party Name ", [Str "Acme"; Str "Bolt Ltd"]);
         (Text "Taxable value", [Int 1000; Int 250]);
         (Text "Rate", [Int 18; Int 5]) ] |}.

Definition duplicate_world : World :=
  {| heap := [duplicate_report]; page := [] |}.

(** The table of the one-row scenario. *)
Definition scenario_report : DataFrame :=
  {| df_index := [0];
     df_data :=
       [ (Text "Invoice Date", [Str "2024-01-01"]);
         (Text "Voucher No.", [Str "INV001"]);
         (Text "Receiver Name", [Str "Acme Co"]);
         (Text "Taxable value", [Int 1000]);
         (Text "Rate", [Int 18]) ] |}.

(** A sheet whose ninth row, which the reader takes for the header,
    holds numbers only. *)
Definition numeric_report : DataFrame :=
  {| df_index := [0; 1];
     df_data :=
       [ (Number "45291", [Int 45292; Int 45293]);
         (Number "18", [Int 18; Int 5]);
         (Number "1000.5", [Int 250; Int 75]) ] |}.

Definition numeric_world : World :=
  {| heap := [numeric_report]; page := [] |}.

(** A header with a number among its text cells. *)
Definition mixed_report : DataFrame :=
  {| df_index := [0];
     df_data :=
       [ (Text "  Invoice Date ", [Str "2024-01-01"]);
         (Number "2024", [Int 1000]);
         (Text "Rate", [Int 18]) ] |}.

Definition mixed_world : World :=
  {| heap := [mixed_report]; page := [] |}.

Definition report_uppercase : UploadedFile :=
  {| name := "PURCHASE.CSV"; getvalue := "Invoice Date,Invoice No.,Party Name" |}.

Definition sales_file : UploadedFile :=
  {| name := "sales.csv"; getvalue := "Invoice Date,Invoice No.,Party Name" |}.

(** Readers for the examples: every file parses to [purchase_report]. *)
Definition sample_read_csv (f : UploadedFile) (skiprows : nat)
  : PyExn + DataFrame := inr purchase_report.

Definition sample_read_excel (f : UploadedFile) (skiprows : nat)
    (engine : string) : PyExn + DataFrame := inr purchase_report.

(** A reader for a sheet whose header row holds numbers only. *)
Definition numeric_read_excel (f : UploadedFile) (skiprows : nat)
    (engine : string) : PyExn + DataFrame := inr numeric_report.

Definition purchase_xlsx : UploadedFile :=
  {| name := "purchase.xlsx"; getvalue := EmptyString |}.

(** A writer that accepts every table, and one that refuses every
    table. *)
Definition accepting_writer (d : DataFrame) : option PyExn := None.

Definition refusing_writer (d : DataFrame) : option PyExn :=
  Some (Exn "IllegalCharacterError" "Acme Co").

(** * Further vocabulary *)

(** Every column has one cell per row. *)
Definition rectangular (d : DataFrame) : Prop :=
  Forall (λ c, length c.2 = pd.len d) (df_data d).

(** All the labels [col_map] accepts. *)
Definition alias_labels : list string := col_map ≫= snd.

(** [process_file] as a function of the table it is given: the clean
    table, if the detection loop finds every field. *)
Definition processed (d : DataFrame) : option DataFrame :=
  match resolve (pd.columns (pd.strip_columns d)) col_map ∅ with
  | inl _ => None
  | inr found_cols =>
      a_date ← found_cols !! "Date";
      a_invoice ← found_cols !! "Invoice No";
      a_party ← found_cols !! "Party Name";
      a_taxable ← found_cols !! "Taxable Amount";
      a_rate ← found_cols !! "GST Rate";
      Some (clean_table d a_date a_invoice a_party a_taxable a_rate)
  end.

(** What [process_file] shows for the table it is given. *)
Definition column_errors (file_type : string) (table : option DataFrame)
  : list Element :=
  match table with
  | None => []
  | Some d =>
      match resolve (pd.columns (pd.strip_columns d)) col_map ∅ with
      | inl standard_name =>
          [Error (missing_column_message file_type standard_name)]
      | inr _ => []
      end
  end.

(** Line 74 raises for this table: it has no text label. *)
Definition refused (table : option DataFrame) : bool :=
  match table with
  | Some d => negb (pd.has_text d)
  | None => false
  end.



Section Pipeline.

Variable read_csv : UploadedFile → nat → PyExn + DataFrame.
Variable read_excel : UploadedFile → nat → string → PyExn + DataFrame.
Variable excel_refuses : DataFrame → option PyExn.

(** The table read from a file, if its reader was found and returned. *)
Definition loaded (f : UploadedFile) : option DataFrame :=
  match reading read_csv read_excel f with
  | Some (inr d) => Some d
  | _ => None
  end.

(** What [load_data] shows for a file. *)
Definition read_errors (f : UploadedFile) : list Element :=
  match reading read_csv read_excel f with
  | Some (inl e) => [Error (read_error_message (name f) (exn_str e))]
  | _ => []
  end.






End Pipeline.

(** [purchase_report] as another export would give it: no Place column
    but a Remarks one, the columns in another order, other blanks around
    the labels. *)
Definition reordered_report : DataFrame :=
  {| df_index := [0; 1; 2];
     df_data :=
       [ (Text "Rate ", [Int 18; Str "18"; NaN]);
         (Text "Taxable value", [Int 1000; Int 250; Int 75]);
         (Text "Remarks", [NaN; NaN; Str "late"]);
         (Text "Receiver Name", [Str "Acme Co"; NaN; Str "Bolt"]);
         (Text "  Voucher No.", [Str "INV001"; Str "INV002"; Str "INV003"]);
         (Text "Invoice Date", [Str "2024-01-01"; Str "2024-01-02"; NaN]) ] |}.

Definition reordered_world : World :=
  {| heap := [reordered_report]; page := [] |}.

(** A reader that finds nothing to parse. *)
Definition empty_read_csv (f : UploadedFile) (skiprows : nat)
  : PyExn + DataFrame :=
  inl (Exn "EmptyDataError" "No columns to parse from file").

(** * Properties *)

(** ** Stripping *)

Module PyStrFacts.
Import PyStr.

Lemma lstrip_clean_head s : clean_head (lstrip s).
Proof.
  induction s as [|a s IH]; simpl; [done|].
  destruct (isspace a) eqn:E; [done|]. simpl. done.
Qed.

Lemma lstrip_fixed s : clean_head s → lstrip s = s.
Proof. destruct s as [|a s]; simpl; [done|]. by intros ->. Qed.

Lemma rstrip_clean_head s : clean_head s → clean_head (rstrip s).
Proof.
  destruct s as [|a s]; simpl; [done|]. intros Ha.
  destruct (rstrip s); simpl; by rewrite ?Ha.
Qed.

Lemma rstrip_cons a s :
  rstrip (String a s) =
    match rstrip s with
    | EmptyString => if isspace a then EmptyString else String a EmptyString
    | t => String a t
    end.
Proof. done. Qed.

Lemma lstrip_split s : ∃ pre, s = pre +:+ lstrip s ∧ blank pre = true.
Proof.
  induction s as [|a s (pre & E & Hb)]; [by exists EmptyString|].
  cbn [lstrip]. destruct (isspace a) eqn:Ha.
  - exists (String a pre). split.
    + change (String a pre +:+ lstrip s) with (String a (pre +:+ lstrip s)).
      by f_equal.
    + cbn [blank]. by rewrite Ha, Hb.
  - by exists EmptyString.
Qed.

Lemma rstrip_split s : ∃ post, s = rstrip s +:+ post ∧ blank post = true.
Proof.
  induction s as [|a s (post & E & Hb)]; [by exists EmptyString|].
  rewrite rstrip_cons. destruct (rstrip s) as [|b t] eqn:Er.
  - simpl in E. subst s. destruct (isspace a) eqn:Ha.
    + exists (String a post). simpl. by rewrite Ha, Hb.
    + by exists post.
  - exists post. simpl. split; [|done]. by rewrite E at 1.
Qed.

Lemma rstrip_clean_last s : clean_last (rstrip s).
Proof.
  induction s as [|a s IH]; [done|].
  rewrite rstrip_cons. destruct (rstrip s) as [|b t] eqn:Er.
  - destruct (isspace a) eqn:Ha; simpl; done.
  - exact IH.
Qed.

Lemma strip_trimmed s : trimmed s (strip s).
Proof.
  unfold strip. destruct (lstrip_split s) as (pre & E1 & B1).
  destruct (rstrip_split (lstrip s)) as (post & E2 & B2).
  exists pre, post. split_and!; [|done|done| |].
  - by rewrite <- E2.
  - apply rstrip_clean_head, lstrip_clean_head.
  - apply rstrip_clean_last.
Qed.

Lemma lstrip_blank pre s : blank pre = true → lstrip (pre +:+ s) = lstrip s.
Proof.
  induction pre as [|a pre IH]; [done|]. simpl.
  intros [Ha Hb]%andb_true_iff. rewrite Ha. by apply IH.
Qed.

Lemma rstrip_blank post : blank post = true → rstrip post = EmptyString.
Proof.
  induction post as [|a post IH]; [done|].
  simpl. intros [Ha Hb]%andb_true_iff. by rewrite IH, Ha.
Qed.

Lemma rstrip_fixed t post :
  clean_last t → blank post = true → rstrip (t +:+ post) = t.
Proof.
  intros Ht Hb. induction t as [|a t IH].
  - simpl. by apply rstrip_blank.
  - change (String a t +:+ post) with (String a (t +:+ post)).
    rewrite rstrip_cons. destruct t as [|b t].
    + simpl in *. rewrite rstrip_blank by done. by rewrite Ht.
    + rewrite IH by exact Ht. done.
Qed.

Lemma lstrip_all_blank post : blank post = true → lstrip post = EmptyString.
Proof.
  induction post as [|a post IH]; [done|].
  cbn [blank lstrip]. intros [-> Hb]%andb_true_iff. by apply IH.
Qed.

(** The trimmed text is determined: it is what [strip] returns. *)
Lemma trimmed_strip s t : trimmed s t → strip s = t.
Proof.
  intros (pre & post & -> & B1 & B2 & H1 & H2). unfold strip.
  rewrite lstrip_blank by done.
  destruct t as [|a t].
  - change (EmptyString +:+ post) with post.
    by rewrite lstrip_all_blank.
  - rewrite lstrip_fixed by exact H1. by apply rstrip_fixed.
Qed.

Lemma strip_spec s t : strip s = t ↔ trimmed s t.
Proof. split; [intros <-; apply strip_trimmed|apply trimmed_strip]. Qed.
Lemma rstrip_idemp s : rstrip (rstrip s) = rstrip s.
Proof.
  induction s as [|a s IH]; simpl; [done|].
  destruct (rstrip s) as [|b t] eqn:E.
  - destruct (isspace a) eqn:Ea; simpl; by rewrite ?Ea.
  - change (rstrip (String a (String b t))) with
      (match rstrip (String b t) with
       | EmptyString => if isspace a then EmptyString else String a EmptyString
       | u => String a u
       end).
    by rewrite IH.
Qed.

Lemma strip_idemp s : strip (strip s) = strip s.
Proof.
  unfold strip.
  rewrite (lstrip_fixed (rstrip (lstrip s))).
  - apply rstrip_idemp.
  - apply rstrip_clean_head, lstrip_clean_head.
Qed.

End PyStrFacts.

Lemma strip_columns_idemp d :
  pd.strip_columns (pd.strip_columns d) = pd.strip_columns d.
Proof.
  unfold pd.strip_columns. simpl. f_equal.
  rewrite <- list_fmap_compose. apply list_fmap_ext.
  intros _ [[s|n] c] _; simpl; [|done]. by rewrite PyStrFacts.strip_idemp.
Qed.

Lemma strip_columns_labels d :
  pd.columns (pd.strip_columns d) = pd.str_strip <$> pd.columns d.
Proof.
  unfold pd.columns, pd.strip_columns. simpl.
  rewrite <- !list_fmap_compose. by apply list_fmap_ext; intros _ [l c] _.
Qed.

Lemma strip_columns_cells d :
  (df_data (pd.strip_columns d)).*2 = (df_data d).*2.
Proof.
  unfold pd.strip_columns. simpl.
  rewrite <- list_fmap_compose. by apply list_fmap_ext; intros _ [l c] _.
Qed.

Lemma has_text_strip d : pd.has_text (pd.strip_columns d) = pd.has_text d.
Proof.
  unfold pd.has_text. rewrite strip_columns_labels.
  induction (pd.columns d) as [|[s|n] ls IH]; [done|done|exact IH].
Qed.

Lemma has_text_elem d : pd.has_text d = true ↔ ∃ s, Text s ∈ pd.columns d.
Proof.
  unfold pd.has_text. rewrite existsb_exists. split.
  - intros ([s|n] & Hin%list_elem_of_In & Ht); [by exists s|done].
  - intros (s & Hin). exists (Text s). by rewrite <- list_elem_of_In.
Qed.

Lemma has_text_stripped d a :
  Text a ∈ pd.columns (pd.strip_columns d) → pd.has_text d = true.
Proof.
  intros Hin. rewrite <- has_text_strip. apply has_text_elem. by exists a.
Qed.

(** ** The detection loop *)

Lemma deref_run w r d : heap w !! r = Some d → deref r w = (Returned d, w).
Proof. unfold deref. by intros ->. Qed.

(** Without a text label the accessor raises in the first round of the
    loop, before anything is assigned or shown. *)
Lemma find_columns_raises r ft item items found w d :
  heap w !! r = Some d →
  pd.has_text d = false →
  find_columns r ft (item :: items) found w = (Raised pd.accessor_error, w).
Proof.
  intros Hd Ht. destruct item as [sn pn].
  change (find_columns r ft ((sn, pn) :: items) found) with
    (df.strip_columns r;;
     columns ← df.columns r;
     let found_name := first_present pn columns in
     let missing := st.error (missing_column_message ft sn);; mret None in
     match found_name with
     | None => missing
     | Some col =>
         if PyStr.truthy col then
           find_columns r ft items (<[sn := col]> found)
         else missing
     end).
  unfold df.strip_columns, pd.str_accessor.
  unfold mbind, Py_bind, mret, Py_ret.
  rewrite (deref_run _ _ _ Hd). fold (pd.has_text d). by rewrite Ht.
Qed.

Lemma find_columns_step r ft sn pn items found w d :
  heap w !! r = Some d →
  pd.has_text d = true →
  find_columns r ft ((sn, pn) :: items) found w =
    let w1 := after_detection r d w [] in
    match first_present pn (pd.columns (pd.strip_columns d)) with
    | None =>
        (Returned None,
         after_detection r d w [Error (missing_column_message ft sn)])
    | Some col =>
        if PyStr.truthy col then
          find_columns r ft items (<[sn := col]> found) w1
        else
          (Returned None,
           after_detection r d w [Error (missing_column_message ft sn)])
    end.
Proof.
  intros Hd Ht.
  assert (Hlt : r < length (heap w)) by (by eapply lookup_lt_Some).
  change (find_columns r ft ((sn, pn) :: items) found) with
    (df.strip_columns r;;
     columns ← df.columns r;
     let found_name := first_present pn columns in
     let missing := st.error (missing_column_message ft sn);; mret None in
     match found_name with
     | None => missing
     | Some col =>
         if PyStr.truthy col then
           find_columns r ft items (<[sn := col]> found)
         else missing
     end).
  unfold df.strip_columns, df.columns, st.error, show, store, pd.str_accessor.
  unfold mbind, Py_bind, mret, Py_ret.
  rewrite (deref_run _ _ _ Hd). fold (pd.has_text d). rewrite Ht.
  unfold lift, mret, Py_ret, deref; cbn [heap page].
  rewrite list_lookup_insert_eq by done.
  unfold after_detection. rewrite app_nil_r.
  destruct (first_present pn _) as [col|]; [|done].
  by destruct (PyStr.truthy col).
Qed.

Lemma after_detection_again r d w shown :
  r < length (heap w) →
  after_detection r (pd.strip_columns d) (after_detection r d w []) shown
  = after_detection r d w shown.
Proof.
  intros Hlt. unfold after_detection. cbn [heap page].
  by rewrite strip_columns_idemp, list_insert_insert_eq, app_nil_r.
Qed.

Lemma resolve_cons columns sn pn items found :
  resolve columns ((sn, pn) :: items) found =
    match first_present pn columns with
    | None => inl sn
    | Some col =>
        if PyStr.truthy col then resolve columns items (<[sn := col]> found)
        else inl sn
    end.
Proof. done. Qed.

Lemma find_columns_run r ft item items found w d :
  heap w !! r = Some d →
  pd.has_text d = true →
  find_columns r ft (item :: items) found w =
    match resolve (pd.columns (pd.strip_columns d)) (item :: items) found with
    | inl sn =>
        (Returned None,
         after_detection r d w [Error (missing_column_message ft sn)])
    | inr fc => (Returned (Some fc), after_detection r d w [])
    end.
Proof.
  revert item found w d.
  induction items as [|item' items IH]; intros [sn pn] found w d Hd Ht.
  all: assert (Hlt : r < length (heap w)) by (by eapply lookup_lt_Some).
  all: rewrite (find_columns_step _ _ _ _ _ _ _ _ Hd Ht), resolve_cons.
  all: destruct (first_present pn _) as [col|]; [|done].
  all: destruct (PyStr.truthy col); [|done].
  - done.
  - cbv zeta.
    rewrite (IH item' _ _ (pd.strip_columns d)).
    2:{ unfold after_detection. cbn [heap]. by rewrite list_lookup_insert_eq. }
    2:{ by rewrite has_text_strip. }
    rewrite strip_columns_idemp.
    destruct (resolve _ (item' :: items) _).
    all: by rewrite after_detection_again.
Qed.

Lemma first_present_Some possible_names columns col :
  first_present possible_names columns = Some col →
  ∃ i, possible_names !! i = Some col ∧ Text col ∈ columns
       ∧ ∀ j other, j < i → possible_names !! j = Some other →
           Text other ∉ columns.
Proof.
  unfold first_present.
  induction possible_names as [|p ps IH]; [done|].
  rewrite filter_cons. destruct (decide (Text p ∈ columns)) as [Hp|Hp].
  - intros [= ->]. exists 0. split_and!; [done..|]. intros; lia.
  - intros H. destruct (IH H) as (i & Hi & Hc & Hfirst).
    exists (S i). split_and!; [done..|].
    intros [|j] other Hj Hl; simplify_eq/=; [done|].
    eapply Hfirst; [|done]. lia.
Qed.

Lemma first_present_None possible_names columns :
  first_present possible_names columns = None ↔
  ∀ col, col ∈ possible_names → Text col ∉ columns.
Proof.
  unfold first_present. rewrite head_None. split.
  - intros H col Hin Hc.
    assert (col ∈ filter (λ c, Text c ∈ columns) possible_names) as Hf
      by (by apply list_elem_of_filter).
    rewrite H in Hf. by apply not_elem_of_nil in Hf.
  - intros H. destruct (filter _ _) as [|c l] eqn:E; [done|].
    assert (c ∈ filter (λ c, Text c ∈ columns) possible_names) as Hf
      by (rewrite E; left).
    apply list_elem_of_filter in Hf as [? ?]. naive_solver.
Qed.

(** ** Labelled columns *)

Section Tagged.
Implicit Types (k key : string) (cs : list Series)
  (data : list (Label * Series)).

Lemma labelled_tagged key data :
  pd.labelled key data = tagged key (pd.labelled key data).*2.
Proof.
  unfold pd.labelled, tagged.
  induction data as [|[l c] data IH]; [done|].
  rewrite filter_cons. simpl. case_decide; simplify_eq/=; [|done].
  by rewrite <- IH.
Qed.

Lemma labelled_nonempty key data :
  Text key ∈ data.*1 → pd.labelled key data ≠ [].
Proof.
  intros (c & E & Hc)%list_elem_of_fmap H.
  assert (c ∈ pd.labelled key data) as Hin by (by apply list_elem_of_filter).
  rewrite H in Hin. by apply not_elem_of_nil in Hin.
Qed.

Lemma elem_of_Text k (subset : list string) :
  Text k ∈ Text <$> subset ↔ k ∈ subset.
Proof.
  rewrite list_elem_of_fmap. split.
  - by intros (x & [= ->] & ?).
  - intros. by exists k.
Qed.

Lemma tagged_cons k c cs : tagged k (c :: cs) = (Text k, c) :: tagged k cs.
Proof. done. Qed.

Lemma tagged_app k cs1 cs2 : tagged k (cs1 ++ cs2) = tagged k cs1 ++ tagged k cs2.
Proof. apply fmap_app. Qed.

Lemma tagged_cells k cs : (tagged k cs).*2 = cs.
Proof. unfold tagged. rewrite <- list_fmap_compose. apply list_fmap_id. Qed.

Lemma tagged_labels k cs : (tagged k cs).*1 = replicate (length cs) (Text k).
Proof. induction cs as [|c cs IH]; [done|]. cbn. f_equal. apply IH. Qed.

Lemma tagged_length k cs : length (tagged k cs) = length cs.
Proof. apply length_fmap. Qed.

Lemma tagged_map_cells k cs (f : Series → Series) :
  prod_map id f <$> tagged k cs = tagged k (f <$> cs).
Proof. unfold tagged. by rewrite <- !list_fmap_compose. Qed.

Lemma tagged_map_label k cs (mapper : gmap string string) :
  prod_map (pd.renamed mapper) id <$> tagged k cs
  = tagged (default k (mapper !! k)) cs.
Proof. unfold tagged. by rewrite <- !list_fmap_compose. Qed.

Lemma labelled_tagged_eq k cs : pd.labelled k (tagged k cs) = tagged k cs.
Proof.
  unfold pd.labelled.
  induction cs as [|c cs IH]; [done|].
  rewrite tagged_cons, filter_cons. cbn. case_decide; [|done]. f_equal. apply IH.
Qed.

Lemma labelled_tagged_ne key k cs : k ≠ key → pd.labelled key (tagged k cs) = [].
Proof.
  intros. unfold pd.labelled.
  induction cs as [|c cs IH]; [done|].
  rewrite tagged_cons, filter_cons. cbn. case_decide; [by simplify_eq|].
  apply IH.
Qed.

Lemma filter_tagged_in (subset : list string) k cs :
  k ∈ subset →
  filter (λ c, c.1 ∈ Text <$> subset) (tagged k cs) = tagged k cs.
Proof.
  intros Hk%elem_of_Text. induction cs as [|c cs IH]; [done|].
  rewrite tagged_cons, filter_cons. cbn. case_decide; [|done]. f_equal. apply IH.
Qed.

Lemma filter_tagged_out (subset : list string) k cs :
  k ∉ subset →
  filter (λ c, c.1 ∈ Text <$> subset) (tagged k cs) = [].
Proof.
  intros Hk. rewrite <- elem_of_Text in Hk.
  induction cs as [|c cs IH]; [done|].
  rewrite tagged_cons, filter_cons. cbn. case_decide; [done|]. apply IH.
Qed.

Lemma labelled_app key data1 data2 :
  pd.labelled key (data1 ++ data2)
  = pd.labelled key data1 ++ pd.labelled key data2.
Proof. apply filter_app. Qed.

Lemma assign_tagged_ne key k values cs data :
  k ≠ key →
  pd.assign key values (tagged k cs ++ data)
  = tagged k cs ++ pd.assign key values data.
Proof.
  intros. induction cs as [|c cs IH]; simpl; [done|].
  case_decide; [by simplify_eq|]. by rewrite IH.
Qed.

Lemma assign_tagged_eq key values cs :
  length values = length cs →
  pd.assign key values (tagged key cs) = tagged key values.
Proof.
  revert values. induction cs as [|c cs IH]; intros [|v vs] ?;
    simplify_eq/=; [done|].
  case_decide; [|done]. by rewrite IH.
Qed.

End Tagged.

(** [take_labels] succeeds on labels the table carries. *)
Lemma take_labels_present keys data :
  Forall (λ k, Text k ∈ data.*1) keys →
  pd.take_labels keys data = inr (keys ≫= λ k, pd.labelled k data).
Proof.
  induction 1 as [|k keys Hk _ IH]; [done|].
  cbn [pd.take_labels]. rewrite IH, bind_cons.
  pose proof (labelled_nonempty _ _ Hk).
  by destruct (pd.labelled k data).
Qed.

(** ** Masks *)

Section Keep.
Context {A : Type}.
Implicit Types (mask : list bool) (l : list A).

Lemma keep_length mask l :
  length mask = length l →
  length (pd.keep mask l) = length (filter (λ b, b = true) mask).
Proof.
  revert l. induction mask as [|b mask IH]; intros [|x l] ?;
    simplify_eq/=; [done|].
  rewrite filter_cons. destruct b; simpl; by rewrite IH.
Qed.

Lemma keep_count mask l :
  length mask = length l →
  length (pd.keep mask l)
  = length l - length (filter (λ b, b = false) mask).
Proof.
  revert l. induction mask as [|b mask IH]; intros [|x l] Hl;
    simplify_eq/=; [done|].
  rewrite filter_cons. specialize (IH l Hl).
  pose proof (length_filter (λ b, b = false) mask).
  destruct b; simpl; lia.
Qed.

Lemma keep_sublist mask l : pd.keep mask l `sublist_of` l.
Proof.
  revert l. induction mask as [|b mask IH]; intros [|x l]; simpl.
  1-3: by apply sublist_nil_l.
  destruct b; by constructor.
Qed.

Lemma rank_S b mask j :
  rank (b :: mask) (S j) = (if b then S (rank mask j) else rank mask j).
Proof.
  unfold rank. cbn [take]. rewrite filter_cons. by destruct b.
Qed.

Lemma keep_lookup mask l j :
  mask !! j = Some true →
  pd.keep mask l !! rank mask j = l !! j.
Proof.
  revert l j.
  induction mask as [|b mask IH]; intros l [|j] Hj; simplify_eq/=.
  - by destruct l.
  - rewrite rank_S. destruct l as [|x l].
    + by destruct b.
    + destruct b; simpl; by rewrite IH.
Qed.

Lemma keep_all_false mask l :
  Forall (λ b, b = false) mask → pd.keep mask l = [].
Proof.
  intros H. revert l. induction H as [|b mask -> _ IH]; intros [|x l]; by simpl.
Qed.

Lemma keep_from_source mask l i x :
  pd.keep mask l !! i = Some x →
  ∃ j, mask !! j = Some true ∧ rank mask j = i ∧ l !! j = Some x.
Proof.
  revert l i.
  induction mask as [|b mask IH]; intros [|y l] i Hi; simplify_eq/=.
  destruct b.
  - destruct i as [|i]; simplify_eq/=.
    + by exists 0.
    + destruct (IH _ _ Hi) as (j & ? & ? & ?).
      exists (S j). rewrite rank_S. split_and!; [done| |done]. by f_equal.
  - destruct (IH _ _ Hi) as (j & ? & ? & ?).
    exists (S j). by rewrite rank_S.
Qed.

End Keep.

(** ** The extraction, step by step *)

Lemma first_present_in possible_names columns col :
  first_present possible_names columns = Some col →
  col ∈ possible_names ∧ Text col ∈ columns.
Proof.
  intros (i & Hi & Hc & _)%first_present_Some. split; [|done].
  by eapply list_elem_of_lookup_2.
Qed.

Lemma first_present_truthy possible_names columns col :
  first_present possible_names columns = Some col →
  Forall (λ p, PyStr.truthy p = true) possible_names →
  PyStr.truthy col = true.
Proof.
  intros [Hin _]%first_present_in Hall.
  by eapply Forall_forall in Hall.
Qed.

Section Aliases.
Variables (d : DataFrame) (a1 a2 a3 a4 a5 : string).
Hypothesis Hres : Resolved d a1 a2 a3 a4 a5.

Lemma resolved_cases :
  (a1 = "Invoice Date" ∨ a1 = "Invoice date")
  ∧ (a2 = "Invoice No." ∨ a2 = "Invoice Number" ∨ a2 = "Voucher No.")
  ∧ (a3 = "Party Name" ∨ a3 = "Receiver Name")
  ∧ (a4 = "Taxable value" ∨ a4 = "Taxable Value")
  ∧ a5 = "Rate".
Proof.
  destruct Hres as [H1 H2 H3 H4 H5]. unfold found_in in *.
  apply first_present_in, proj1 in H1, H2, H3, H4, H5.
  set_unfold. tauto.
Qed.

Lemma resolved_present :
  Forall (λ k, Text k ∈ pd.columns (pd.strip_columns d)) [a1; a2; a3; a4; a5].
Proof.
  destruct Hres as [H1 H2 H3 H4 H5]. unfold found_in in *.
  repeat constructor; by eapply proj2, first_present_in.
Qed.

Lemma resolved_subset :
  (a1 ∉ [a3; a4]) ∧ (a2 ∉ [a3; a4]) ∧ (a5 ∉ [a3; a4]).
Proof.
  destruct resolved_cases
    as ([->| ->] & [->|[->| ->]] & [->| ->] & [->| ->] & ->).
  all: split_and!;
    (apply not_elem_of_cons; split; [done|];
     apply not_elem_of_cons; split; [done|]; apply not_elem_of_nil).
Qed.

Lemma resolved_rename :
  let m := rename_dict a1 a2 a3 a4 a5 in
  default a1 (m !! a1) = "Date"
  ∧ default a2 (m !! a2) = "Invoice No"
  ∧ default a3 (m !! a3) = "Party Name"
  ∧ default a4 (m !! a4) = "Taxable Amount"
  ∧ default a5 (m !! a5) = "GST Rate".
Proof.
  destruct resolved_cases
    as ([->| ->] & [->|[->| ->]] & [->| ->] & [->| ->] & ->).
  all: by vm_compute.
Qed.

End Aliases.

Section Extraction.
Variables (d : DataFrame) (a1 a2 a3 a4 a5 : string).
Hypothesis Hres : Resolved d a1 a2 a3 a4 a5.

Let mask := kept_rows d a3 a4.
Let rate := pd.keep mask <$> source_cells d a5.

Lemma source_cells_nonempty a :
  Text a ∈ pd.columns (pd.strip_columns d) → source_cells d a ≠ [].
Proof.
  intros Ha%labelled_nonempty Hnil. apply Ha.
  rewrite labelled_tagged. fold (source_cells d a). by rewrite Hnil.
Qed.

Lemma getitem_list_resolved :
  pd.getitem_list (pd.strip_columns d) [a1; a2; a3; a4; a5]
  = inr (selected_table d a1 a2 a3 a4 a5).
Proof.
  unfold pd.getitem_list.
  rewrite take_labels_present by apply (resolved_present _ _ _ _ _ _ Hres).
  rewrite !bind_cons.
  change (@mbind list _ _ _
            (λ k, pd.labelled k (df_data (pd.strip_columns d))) [])
    with (@nil (Label * Series)).
  rewrite app_nil_r.
  by rewrite (labelled_tagged a1), (labelled_tagged a2), (labelled_tagged a3),
    (labelled_tagged a4), (labelled_tagged a5).
Qed.

Lemma selected_mask :
  pd.keep_mask (selected_table d a1 a2 a3 a4 a5) [a3; a4] = mask.
Proof.
  destruct (resolved_subset _ _ _ _ _ _ Hres) as (H1 & H2 & H5).
  unfold pd.keep_mask, selected_table. cbn [df_data].
  rewrite !filter_app.
  rewrite (filter_tagged_out _ a1), (filter_tagged_out _ a2),
    (filter_tagged_out _ a5) by done.
  rewrite (filter_tagged_in _ a3) by left.
  rewrite (filter_tagged_in _ a4) by (right; left).
  rewrite app_nil_r, !app_nil_l, fmap_app, !tagged_cells. done.
Qed.

Lemma resolved_tagged a :
  a ∈ [a1; a2; a3; a4; a5] → Text a ∈ (tagged a (source_cells d a)).*1.
Proof.
  intros Ha.
  assert (Hin : Text a ∈ pd.columns (pd.strip_columns d)).
  { pose proof (resolved_present _ _ _ _ _ _ Hres) as Hall.
    by eapply Forall_forall in Hall. }
  apply source_cells_nonempty in Hin.
  rewrite tagged_labels. destruct (source_cells d a); [done|]. left.
Qed.

Lemma selected_has a :
  a ∈ [a1; a2; a3; a4; a5] →
  Text a ∈ pd.columns (selected_table d a1 a2 a3 a4 a5).
Proof.
  intros Ha. pose proof (resolved_tagged a Ha) as Hin.
  unfold pd.columns, selected_table. cbn [df_data]. rewrite !fmap_app.
  rewrite !elem_of_app.
  repeat (apply elem_of_cons in Ha as [->|Ha]); [tauto..|].
  by apply elem_of_nil in Ha.
Qed.

Lemma dropna_resolved :
  pd.dropna (selected_table d a1 a2 a3 a4 a5) [a3; a4]
  = inr (dropped_table d a1 a2 a3 a4 a5).
Proof.
  unfold pd.dropna.
  assert (list_find
            (λ k, Text k ∉ pd.columns (selected_table d a1 a2 a3 a4 a5))
            [a3; a4] = None) as ->.
  { apply list_find_None. repeat constructor.
    all: intros H; apply H, selected_has.
    - do 2 right; left.
    - do 3 right; left. }
  rewrite selected_mask. unfold dropped_table, selected_table.
  cbn [df_index df_data]. fold mask.
  by rewrite !fmap_app, !tagged_map_cells.
Qed.

Lemma rename_resolved :
  pd.rename (dropped_table d a1 a2 a3 a4 a5) (rename_dict a1 a2 a3 a4 a5)
  = body_table d a1 a2 a3 a4 a5 rate.
Proof.
  destruct (resolved_rename _ _ _ _ _ _ Hres) as (R1 & R2 & R3 & R4 & R5).
  unfold pd.rename, dropped_table, body_table, clean_body.
  cbn [df_index df_data].
  rewrite !fmap_app, !tagged_map_label.
  by rewrite R1, R2, R3, R4, R5.
Qed.

Lemma rate_nonempty : rate ≠ [].
Proof.
  assert (source_cells d a5 ≠ []).
  { apply source_cells_nonempty.
    pose proof (resolved_present _ _ _ _ _ _ Hres) as Hall.
    eapply Forall_forall in Hall; [done|]. do 4 right; left. }
  subst rate. by destruct (source_cells d a5).
Qed.

Lemma body_rate values :
  pd.labelled "GST Rate" (clean_body d a1 a2 a3 a4 a5 values)
  = tagged "GST Rate" values.
Proof.
  unfold clean_body. rewrite !labelled_app.
  rewrite !labelled_tagged_ne by done.
  by rewrite labelled_tagged_eq.
Qed.

Lemma tagged_nonempty k (cs : list Series) : cs ≠ [] → tagged k cs ≠ [].
Proof. by destruct cs. Qed.

Lemma getitem_resolved :
  pd.getitem (body_table d a1 a2 a3 a4 a5 rate) "GST Rate" = inr rate.
Proof.
  unfold pd.getitem, body_table. cbn [df_data]. rewrite body_rate.
  pose proof (tagged_nonempty "GST Rate" _ rate_nonempty).
  destruct (tagged "GST Rate" rate) as [|c cs] eqn:E; [done|].
  by rewrite <- E, tagged_cells.
Qed.

Lemma setitem_resolved values :
  length values = length rate →
  pd.setitem (body_table d a1 a2 a3 a4 a5 rate) "GST Rate" values
  = inr (body_table d a1 a2 a3 a4 a5 values).
Proof.
  intros Hlen.
  unfold pd.setitem, body_table. cbn [df_index df_data]. rewrite body_rate.
  pose proof (tagged_nonempty "GST Rate" _ rate_nonempty).
  destruct (tagged "GST Rate" rate) as [|c cs] eqn:E; [done|].
  rewrite <- E, tagged_length. rewrite decide_True by done.
  unfold clean_body. fold mask.
  rewrite !assign_tagged_ne by done.
  by rewrite assign_tagged_eq.
Qed.

Lemma body_columns values :
  Text "S/N" ∉ pd.columns (body_table d a1 a2 a3 a4 a5 values).
Proof.
  unfold pd.columns, body_table, clean_body. cbn [df_data].
  rewrite !fmap_app, !tagged_labels.
  rewrite !elem_of_app, !elem_of_replicate.
  by intros [[? _]|[[? _]|[[? _]|[[? _]|[? _]]]]].
Qed.

Lemma insert_resolved :
  let t := body_table d a1 a2 a3 a4 a5 (fmap (M := list) percent <$> rate) in
  pd.insert t 0 "S/N" (pd.range 1 (pd.len t + 1))
  = inr (clean_table d a1 a2 a3 a4 a5).
Proof.
  intros t. unfold pd.insert.
  rewrite decide_False by apply body_columns.
  rewrite decide_False by lia.
  rewrite decide_True.
  2:{ unfold pd.range. rewrite length_fmap, length_seq. lia. }
  done.
Qed.

End Extraction.

(** ** Running the calls *)

Lemma bind_run {A B} (m : Py A) (k : A → Py B) w a w' :
  m w = (Returned a, w') → (m ≫= k) w = k a w'.
Proof. unfold mbind, Py_bind. by intros ->. Qed.

Lemma lift_run {A} (r : PyExn + A) a w : r = inr a → lift r w = (Returned a, w).
Proof. by intros ->. Qed.

Lemma dict_getitem_run (m : gmap string string) key v w :
  m !! key = Some v → dict_getitem m key w = (Returned v, w).
Proof. unfold dict_getitem. by intros ->. Qed.

Lemma lookup_last (h : list DataFrame) x : (h ++ [x]) !! length h = Some x.
Proof. by apply list_lookup_middle. Qed.

Lemma insert_last (h : list DataFrame) x y :
  <[length h := y]> (h ++ [x]) = h ++ [y].
Proof.
  rewrite insert_app_r_alt by done. by rewrite Nat.sub_diag.
Qed.

Section Calls.
Variables (h : list DataFrame) (x : DataFrame) (p : list Element).

Let w := {| heap := h ++ [x]; page := p |}.

Lemma deref_last : deref (length h) w = (Returned x, w).
Proof. apply deref_run, lookup_last. Qed.

Lemma copy_last :
  df.copy (length h) w
  = (Returned (length (h ++ [x])), {| heap := (h ++ [x]) ++ [x]; page := p |}).
Proof. unfold df.copy. by rewrite (bind_run _ _ _ _ _ deref_last). Qed.

Lemma dropna_last subset x' :
  pd.dropna x subset = inr x' →
  df.dropna_inplace (length h) subset w
  = (Returned (), {| heap := h ++ [x']; page := p |}).
Proof.
  intros Hx. unfold df.dropna_inplace.
  rewrite (bind_run _ _ _ _ _ deref_last).
  rewrite (bind_run _ _ _ _ _ (lift_run _ _ _ Hx)).
  unfold store, w. cbn [heap page]. by rewrite insert_last.
Qed.

Lemma rename_last mapper :
  df.rename (length h) mapper w
  = (Returned (length (h ++ [x])),
     {| heap := (h ++ [x]) ++ [pd.rename x mapper]; page := p |}).
Proof. unfold df.rename. by rewrite (bind_run _ _ _ _ _ deref_last). Qed.

Lemma getitem_last key values :
  pd.getitem x key = inr values →
  df.getitem (length h) key w = (Returned values, w).
Proof.
  intros Hx. unfold df.getitem.
  rewrite (bind_run _ _ _ _ _ deref_last). by apply lift_run.
Qed.

Lemma setitem_last key values x' :
  pd.setitem x key values = inr x' →
  df.setitem (length h) key values w
  = (Returned (), {| heap := h ++ [x']; page := p |}).
Proof.
  intros Hx. unfold df.setitem.
  rewrite (bind_run _ _ _ _ _ deref_last).
  rewrite (bind_run _ _ _ _ _ (lift_run _ _ _ Hx)).
  unfold store, w. cbn [heap page]. by rewrite insert_last.
Qed.

Lemma len_last : df.len (length h) w = (Returned (pd.len x), w).
Proof. unfold df.len. by rewrite (bind_run _ _ _ _ _ deref_last). Qed.

Lemma insert_at_last loc column value x' :
  pd.insert x loc column value = inr x' →
  df.insert (length h) loc column value w
  = (Returned (), {| heap := h ++ [x']; page := p |}).
Proof.
  intros Hx. unfold df.insert.
  rewrite (bind_run _ _ _ _ _ deref_last).
  rewrite (bind_run _ _ _ _ _ (lift_run _ _ _ Hx)).
  unfold store, w. cbn [heap page]. by rewrite insert_last.
Qed.

End Calls.

Lemma getitem_list_run w r d keys d' :
  heap w !! r = Some d →
  pd.getitem_list d keys = inr d' →
  df.getitem_list r keys w
  = (Returned (length (heap w)), {| heap := heap w ++ [d']; page := page w |}).
Proof.
  intros Hd Hk. unfold df.getitem_list.
  rewrite (bind_run _ _ _ _ _ (deref_run _ _ _ Hd)).
  by rewrite (bind_run _ _ _ _ _ (lift_run _ _ _ Hk)).
Qed.

Lemma found_dict_lookup a1 a2 a3 a4 a5 :
  let fc := found_dict a1 a2 a3 a4 a5 in
  fc !! "Date" = Some a1 ∧ fc !! "Invoice No" = Some a2
  ∧ fc !! "Party Name" = Some a3 ∧ fc !! "Taxable Amount" = Some a4
  ∧ fc !! "GST Rate" = Some a5.
Proof. by vm_compute. Qed.

Lemma Resolved_has_text d a1 a2 a3 a4 a5 :
  Resolved d a1 a2 a3 a4 a5 → pd.has_text d = true.
Proof.
  intros [H1 _ _ _ _]. unfold found_in in H1.
  apply first_present_in in H1 as [_ H1]. by eapply has_text_stripped.
Qed.

Lemma process_file_found r ft w d a1 a2 a3 a4 a5 :
  heap w !! r = Some d →
  Resolved d a1 a2 a3 a4 a5 →
  process_file (Some r) ft w
  = (Returned (Some (S (S (length (heap w))))),
     {| heap := heap_after r d (heap w) a1 a2 a3 a4 a5; page := page w |}).
Proof.
  intros Hd Hres.
  pose proof (Resolved_has_text _ _ _ _ _ _ Hres) as Ht.
  assert (Hresolve : resolve (pd.columns (pd.strip_columns d)) col_map ∅
                     = inr (found_dict a1 a2 a3 a4 a5)).
  { destruct Hres as [H1 H2 H3 H4 H5]. unfold found_in in *.
    pose proof (first_present_truthy _ _ _ H1 ltac:(repeat constructor)) as T1.
    pose proof (first_present_truthy _ _ _ H2 ltac:(repeat constructor)) as T2.
    pose proof (first_present_truthy _ _ _ H3 ltac:(repeat constructor)) as T3.
    pose proof (first_present_truthy _ _ _ H4 ltac:(repeat constructor)) as T4.
    pose proof (first_present_truthy _ _ _ H5 ltac:(repeat constructor)) as T5.
    unfold col_map.
    rewrite resolve_cons, H1, T1, resolve_cons, H2, T2, resolve_cons, H3, T3.
    by rewrite resolve_cons, H4, T4, resolve_cons, H5, T5. }
  destruct (found_dict_lookup a1 a2 a3 a4 a5) as (L1 & L2 & L3 & L4 & L5).
  assert (Hlt : r < length (heap w)) by (by eapply lookup_lt_Some).
  unfold process_file, col_map.
  erewrite bind_run; [|rewrite (find_columns_run _ _ _ _ _ _ _ Hd Ht);
                       fold col_map; by rewrite Hresolve].
  unfold after_detection. rewrite app_nil_r.
  set (h0 := <[r := pd.strip_columns d]> (heap w)).
  assert (Hlen0 : length h0 = length (heap w)) by apply length_insert.
  rewrite (bind_run _ _ _ _ _ (dict_getitem_run _ _ _ _ L1)).
  rewrite (bind_run _ _ _ _ _ (dict_getitem_run _ _ _ _ L2)).
  rewrite (bind_run _ _ _ _ _ (dict_getitem_run _ _ _ _ L3)).
  rewrite (bind_run _ _ _ _ _ (dict_getitem_run _ _ _ _ L4)).
  rewrite (bind_run _ _ _ _ _ (dict_getitem_run _ _ _ _ L5)).
  erewrite bind_run.
  2:{ eapply getitem_list_run; [|by apply getitem_list_resolved].
      cbn [heap]. subst h0. by rewrite list_lookup_insert_eq. }
  cbn [heap page].
  rewrite (bind_run _ _ _ _ _ (copy_last _ _ _)).
  rewrite (bind_run _ _ _ _ _ (dict_getitem_run _ _ _ _ L3)).
  rewrite (bind_run _ _ _ _ _ (dict_getitem_run _ _ _ _ L4)).
  rewrite (bind_run _ _ _ _ _
             (dropna_last _ _ _ _ _ (dropna_resolved _ _ _ _ _ _ Hres))).
  rewrite (bind_run _ _ _ _ _ (dict_getitem_run _ _ _ _ L1)).
  rewrite (bind_run _ _ _ _ _ (dict_getitem_run _ _ _ _ L2)).
  rewrite (bind_run _ _ _ _ _ (dict_getitem_run _ _ _ _ L3)).
  rewrite (bind_run _ _ _ _ _ (dict_getitem_run _ _ _ _ L4)).
  rewrite (bind_run _ _ _ _ _ (dict_getitem_run _ _ _ _ L5)).
  fold (rename_dict a1 a2 a3 a4 a5).
  rewrite (bind_run _ _ _ _ _ (rename_last _ _ _ _)).
  rewrite (rename_resolved _ _ _ _ _ _ Hres).
  rewrite (bind_run _ _ _ _ _
             (getitem_last _ _ _ _ _ (getitem_resolved _ _ _ _ _ _ Hres))).
  erewrite bind_run.
  2:{ apply setitem_last, (setitem_resolved _ _ _ _ _ _ Hres).
      unfold pd.astype_str_add. by rewrite length_fmap. }
  rewrite (bind_run _ _ _ _ _ (len_last _ _ _)).
  erewrite bind_run.
  2:{ apply insert_at_last, insert_resolved. }
  unfold mret, Py_ret, heap_after. subst h0.
  rewrite !length_app, length_insert. cbn [length].
  do 3 f_equal. lia.
Qed.

Lemma process_file_missing r ft w d sn :
  heap w !! r = Some d →
  pd.has_text d = true →
  resolve (pd.columns (pd.strip_columns d)) col_map ∅ = inl sn →
  process_file (Some r) ft w
  = (Returned None,
     after_detection r d w [Error (missing_column_message ft sn)]).
Proof.
  intros Hd Ht Hr. unfold process_file, col_map.
  erewrite bind_run; [|rewrite (find_columns_run _ _ _ _ _ _ _ Hd Ht);
                       fold col_map; by rewrite Hr].
  done.
Qed.

(** Line 74 on a table without a text label: [process_file] raises
    before it has changed or shown anything. *)
Lemma process_file_raises r ft w d :
  heap w !! r = Some d →
  pd.has_text d = false →
  process_file (Some r) ft w = (Raised pd.accessor_error, w).
Proof.
  intros Hd Ht. unfold process_file, col_map.
  unfold mbind at 1. unfold Py_bind.
  by rewrite (find_columns_raises _ _ _ _ _ _ _ Hd Ht).
Qed.

Lemma col_map_cases field aliases :
  (field, aliases) ∈ col_map →
  (field, aliases) = ("Date", ["Invoice Date"; "Invoice date"])
  ∨ (field, aliases)
    = ("Invoice No", ["Invoice No."; "Invoice Number"; "Voucher No."])
  ∨ (field, aliases) = ("Party Name", ["Party Name"; "Receiver Name"])
  ∨ (field, aliases) = ("Taxable Amount", ["Taxable value"; "Taxable Value"])
  ∨ (field, aliases) = ("GST Rate", ["Rate"]).
Proof. unfold col_map. set_unfold. tauto. Qed.

Ltac earlier_fields :=
  let j := fresh "j" in
  intros j ? ? ? ?;
  repeat (destruct j as [|j]; [simplify_eq/=; by eexists|]); lia.

Lemma resolve_cases columns :
  (∃ a1 a2 a3 a4 a5,
      first_present ["Invoice Date"; "Invoice date"] columns = Some a1
      ∧ first_present ["Invoice No."; "Invoice Number"; "Voucher No."] columns
        = Some a2
      ∧ first_present ["Party Name"; "Receiver Name"] columns = Some a3
      ∧ first_present ["Taxable value"; "Taxable Value"] columns = Some a4
      ∧ first_present ["Rate"] columns = Some a5
      ∧ resolve columns col_map ∅ = inr (found_dict a1 a2 a3 a4 a5))
  ∨ (∃ i sn pn,
        col_map !! i = Some (sn, pn)
        ∧ first_present pn columns = None
        ∧ (∀ j f p, j < i → col_map !! j = Some (f, p) →
             is_Some (first_present p columns))
        ∧ resolve columns col_map ∅ = inl sn).
Proof.
  unfold col_map.
  destruct (first_present ["Invoice Date"; "Invoice date"] columns)
    as [a1|] eqn:H1.
  2:{ right. exists 0, "Date", ["Invoice Date"; "Invoice date"].
      rewrite resolve_cons, H1. split_and!; [done..| |done]. earlier_fields. }
  pose proof (first_present_truthy _ _ _ H1 ltac:(repeat constructor)) as T1.
  destruct (first_present ["Invoice No."; "Invoice Number"; "Voucher No."]
              columns) as [a2|] eqn:H2.
  2:{ right.
      exists 1, "Invoice No", ["Invoice No."; "Invoice Number"; "Voucher No."].
      rewrite resolve_cons, H1, T1, resolve_cons, H2.
      split_and!; [done..| |done].
      earlier_fields. }
  pose proof (first_present_truthy _ _ _ H2 ltac:(repeat constructor)) as T2.
  destruct (first_present ["Party Name"; "Receiver Name"] columns)
    as [a3|] eqn:H3.
  2:{ right. exists 2, "Party Name", ["Party Name"; "Receiver Name"].
      rewrite resolve_cons, H1, T1, resolve_cons, H2, T2, resolve_cons, H3.
      split_and!; [done..| |done].
      earlier_fields. }
  pose proof (first_present_truthy _ _ _ H3 ltac:(repeat constructor)) as T3.
  destruct (first_present ["Taxable value"; "Taxable Value"] columns)
    as [a4|] eqn:H4.
  2:{ right. exists 3, "Taxable Amount", ["Taxable value"; "Taxable Value"].
      rewrite resolve_cons, H1, T1, resolve_cons, H2, T2, resolve_cons, H3, T3.
      rewrite resolve_cons, H4.
      split_and!; [done..| |done].
      earlier_fields. }
  pose proof (first_present_truthy _ _ _ H4 ltac:(repeat constructor)) as T4.
  destruct (first_present ["Rate"] columns) as [a5|] eqn:H5.
  2:{ right. exists 4, "GST Rate", ["Rate"].
      rewrite resolve_cons, H1, T1, resolve_cons, H2, T2, resolve_cons, H3, T3.
      rewrite resolve_cons, H4, T4, resolve_cons, H5.
      split_and!; [done..| |done].
      earlier_fields. }
  pose proof (first_present_truthy _ _ _ H5 ltac:(repeat constructor)) as T5.
  left. exists a1, a2, a3, a4, a5. split_and!; [done..|].
  rewrite resolve_cons, H1, T1, resolve_cons, H2, T2, resolve_cons, H3, T3.
  by rewrite resolve_cons, H4, T4, resolve_cons, H5, T5.
Qed.

Lemma Resolved_covered d a1 a2 a3 a4 a5 :
  Resolved d a1 a2 a3 a4 a5 → covered d.
Proof.
  intros [H1 H2 H3 H4 H5] field aliases Hin. unfold found_in in *.
  rewrite strip_columns_labels in *.
  apply col_map_cases in Hin as [Hc|[Hc|[Hc|[Hc|Hc]]]]; simplify_eq.
  - exists a1. by apply first_present_in.
  - exists a2. by apply first_present_in.
  - exists a3. by apply first_present_in.
  - exists a4. by apply first_present_in.
  - exists a5. by apply first_present_in.
Qed.

(** What [process_file] does to the world of a caller holding [d] at [r]. *)
Lemma process_file_cases r ft w d :
  heap w !! r = Some d →
  pd.has_text d = true →
  (∃ a1 a2 a3 a4 a5,
      Resolved d a1 a2 a3 a4 a5
      ∧ find_columns r ft col_map ∅ w
        = (Returned (Some (found_dict a1 a2 a3 a4 a5)), after_detection r d w [])
      ∧ process_file (Some r) ft w
        = (Returned (Some (S (S (length (heap w))))),
           {| heap := heap_after r d (heap w) a1 a2 a3 a4 a5;
              page := page w |}))
  ∨ (∃ i sn pn,
        col_map !! i = Some (sn, pn)
        ∧ first_present pn (pd.str_strip <$> pd.columns d) = None
        ∧ (∀ j f p, j < i → col_map !! j = Some (f, p) →
             is_Some (first_present p (pd.str_strip <$> pd.columns d)))
        ∧ find_columns r ft col_map ∅ w
          = (Returned None,
             after_detection r d w [Error (missing_column_message ft sn)])
        ∧ process_file (Some r) ft w
          = (Returned None,
             after_detection r d w [Error (missing_column_message ft sn)])).
Proof.
  intros Hd Ht.
  destruct (resolve_cases (pd.columns (pd.strip_columns d)))
    as [(a1 & a2 & a3 & a4 & a5 & H1 & H2 & H3 & H4 & H5 & Hr)
       |(i & sn & pn & Hi & Hnone & Hbefore & Hr)].
  - left. exists a1, a2, a3, a4, a5.
    assert (Resolved d a1 a2 a3 a4 a5) by (by constructor).
    split_and!; [done| |by apply process_file_found].
    unfold col_map. rewrite (find_columns_run _ _ _ _ _ _ _ Hd Ht).
    fold col_map. by rewrite Hr.
  - right. exists i, sn, pn. rewrite <- strip_columns_labels.
    split_and!; [done..| |by apply process_file_missing].
    unfold col_map. rewrite (find_columns_run _ _ _ _ _ _ _ Hd Ht).
    fold col_map. by rewrite Hr.
Qed.

(** A table is returned only for a table with a text label. *)
Lemma returned_has_text r ft w d o w' :
  heap w !! r = Some d →
  process_file (Some r) ft w = (Returned o, w') →
  pd.has_text d = true.
Proof.
  intros Hd Hrun. destruct (pd.has_text d) eqn:Ht; [done|].
  by rewrite (process_file_raises _ _ _ _ Hd Ht) in Hrun.
Qed.

Lemma covered_has_text d : covered d → pd.has_text d = true.
Proof.
  intros Hcov. destruct (Hcov "GST Rate" ["Rate"]) as (a & _ & Hin).
  { unfold col_map. do 4 right. left. }
  rewrite <- strip_columns_labels in Hin. by eapply has_text_stripped.
Qed.

Lemma heap_after_result r d h a1 a2 a3 a4 a5 :
  heap_after r d h a1 a2 a3 a4 a5 !! S (S (length h))
  = Some (clean_table d a1 a2 a3 a4 a5).
Proof.
  unfold heap_after.
  replace (S (S (length h))) with
    (length ((<[r := pd.strip_columns d]> h
              ++ [selected_table d a1 a2 a3 a4 a5])
             ++ [dropped_table d a1 a2 a3 a4 a5])).
  - apply lookup_last.
  - rewrite !length_app, length_insert. simpl. lia.
Qed.

Lemma heap_after_old r d h a1 a2 a3 a4 a5 i :
  i < length h →
  heap_after r d h a1 a2 a3 a4 a5 !! i = <[r := pd.strip_columns d]> h !! i.
Proof.
  intros Hi. unfold heap_after.
  rewrite !lookup_app_l; [done|..]; rewrite ?length_app, length_insert; lia.
Qed.

Lemma process_file_returns r ft w d r' w' :
  heap w !! r = Some d →
  process_file (Some r) ft w = (Returned (Some r'), w') →
  ∃ a1 a2 a3 a4 a5,
    Resolved d a1 a2 a3 a4 a5
    ∧ r' = S (S (length (heap w)))
    ∧ w' = {| heap := heap_after r d (heap w) a1 a2 a3 a4 a5; page := page w |}
    ∧ heap w' !! r' = Some (clean_table d a1 a2 a3 a4 a5).
Proof.
  intros Hd Hrun.
  pose proof (returned_has_text _ _ _ _ _ _ Hd Hrun) as Ht.
  destruct (process_file_cases r ft w d Hd Ht)
    as [(a1 & a2 & a3 & a4 & a5 & Hres & _ & Hp)|(i & sn & pn & _ & _ & _ & _ & Hp)];
    rewrite Hp in Hrun; [|done].
  injection Hrun as <- <-. exists a1, a2, a3, a4, a5.
  split_and!; [done..|]. apply heap_after_result.
Qed.

(** ** Facts about the clean table *)

Lemma source_cells_from d a src :
  src ∈ source_cells d a → src ∈ (df_data d).*2.
Proof.
  unfold source_cells, pd.labelled. rewrite <- strip_columns_cells.
  intros (c & -> & Hc)%list_elem_of_fmap.
  apply list_elem_of_filter in Hc as [_ Hc].
  apply list_elem_of_fmap. by exists c.
Qed.

Lemma elem_of_tagged (label : Label) k (col : Series) cs :
  (label, col) ∈ tagged k cs ↔ label = Text k ∧ col ∈ cs.
Proof.
  unfold tagged. rewrite list_elem_of_fmap. split.
  - intros (c & [= -> ->] & ?). done.
  - intros [-> ?]. by exists col.
Qed.

Lemma row_complete_false cs i :
  pd.row_complete cs i = false ↔
  ∃ col c, col ∈ cs ∧ col !! i = Some c ∧ isna c = true.
Proof.
  unfold pd.row_complete. induction cs as [|col cs IH]; simpl.
  - split; [done|]. intros (? & ? & []%elem_of_nil & _).
  - rewrite andb_false_iff, IH. split.
    + intros [H|(col' & c & ? & ? & ?)].
      * destruct (col !! i) as [c|] eqn:E; [|done].
        exists col, c. split_and!; [left|done|]. by destruct (isna c).
      * exists col', c. split_and!; [by right|done..].
    + intros (col' & c & [->|?]%elem_of_cons & Hl & Hna).
      * left. by rewrite Hl, Hna.
      * right. by exists col', c.
Qed.

Lemma kept_rows_length d party taxable :
  length (kept_rows d party taxable) = pd.len d.
Proof. unfold kept_rows. by rewrite length_fmap, length_seq. Qed.

Lemma kept_rows_lookup d party taxable i :
  i < pd.len d →
  kept_rows d party taxable !! i
  = Some (pd.row_complete (source_cells d party ++ source_cells d taxable) i).
Proof.
  intros Hi. unfold kept_rows.
  by rewrite list_lookup_fmap, lookup_seq_lt.
Qed.

Lemma clean_table_columns d a1 a2 a3 a4 a5 label col :
  (label, col) ∈ df_data (clean_table d a1 a2 a3 a4 a5) →
  label ≠ Text "S/N" →
  ∃ src, src ∈ (df_data d).*2
         ∧ (col = pd.keep (kept_rows d a3 a4) src
            ∨ col = percent <$> pd.keep (kept_rows d a3 a4) src).
Proof.
  unfold clean_table, clean_body. cbn [df_data].
  intros [[= -> ->]|Hin]%elem_of_cons Hne; [done|].
  rewrite !elem_of_app, !elem_of_tagged in Hin.
  destruct Hin as [[_ Hc]|[[_ Hc]|[[_ Hc]|[[_ Hc]|[_ Hc]]]]].
  5: apply list_elem_of_fmap in Hc as (col' & -> & Hc).
  all: apply list_elem_of_fmap in Hc as (src & -> & Hc).
  all: exists src; split; [by eapply source_cells_from|tauto].
Qed.

Lemma labelled_cons_ne key (l : Label) (c : Series) data :
  l ≠ Text key → pd.labelled key ((l, c) :: data) = pd.labelled key data.
Proof. intros. unfold pd.labelled. rewrite filter_cons. by case_decide. Qed.

Lemma clean_table_rate d a1 a2 a3 a4 a5 :
  (pd.labelled "GST Rate" (df_data (clean_table d a1 a2 a3 a4 a5))).*2
  = (λ col, percent <$> pd.keep (kept_rows d a3 a4) col) <$> source_cells d a5.
Proof.
  unfold clean_table. cbn [df_data].
  rewrite labelled_cons_ne by done.
  rewrite body_rate, tagged_cells.
  by rewrite <- list_fmap_compose.
Qed.

Lemma Resolved_rate d a1 a2 a3 a4 a5 :
  Resolved d a1 a2 a3 a4 a5 → a5 = "Rate".
Proof. intros H. by destruct (resolved_cases _ _ _ _ _ _ H) as (_ & _ & _ & _ & ->). Qed.

(** Either every field resolves and a table is returned without any
    message, or the table is not covered. *)
Lemma resolution_outcome r ft w d :
  heap w !! r = Some d →
  pd.has_text d = true →
  (∃ a1 a2 a3 a4 a5,
      Resolved d a1 a2 a3 a4 a5
      ∧ process_file (Some r) ft w
        = (Returned (Some (S (S (length (heap w))))),
           {| heap := heap_after r d (heap w) a1 a2 a3 a4 a5;
              page := page w |}))
  ∨ (¬ covered d
     ∧ ∃ sn, process_file (Some r) ft w
             = (Returned None,
                after_detection r d w [Error (missing_column_message ft sn)])).
Proof.
  intros Hd Ht.
  destruct (process_file_cases r ft w d Hd Ht)
    as [(a1 & a2 & a3 & a4 & a5 & Hres & _ & Hp)
       |(i & sn & pn & Hi & Hnone & _ & _ & Hp)].
  - left. by exists a1, a2, a3, a4, a5.
  - right. split; [|by exists sn].
    intros Hcov. destruct (Hcov sn pn) as (a & Ha & Hin).
    + by eapply list_elem_of_lookup_2.
    + by eapply first_present_None in Hnone.
Qed.

(** ** The scenarios *)

Example scenario_one_row :
  table_of (process_file (Some 0) "Purchase"
              {| heap := [scenario_report]; page := [] |}).2 (Some 3)
  = Some {| df_index := [0];
            df_data :=
              [ (Text "S/N", [Int 1]);
                (Text "Date", [Str "2024-01-01"]);
                (Text "Invoice No", [Str "INV001"]);
                (Text "Party Name", [Str "Acme Co"]);
                (Text "Taxable Amount", [Int 1000]);
                (Text "GST Rate", [Str "18%"]) ] |}.
Proof. vm_compute. reflexivity. Qed.

(** The row without a Party Name takes no serial number. *)
Example scenario_dropped_row :
  table_of (process_file (Some 0) "Purchase" caller_world).2 (Some 3)
  = Some {| df_index := [0; 2];
            df_data :=
              [ (Text "S/N", [Int 1; Int 2]);
                (Text "Date", [Str "2024-01-01"; NaN]);
                (Text "Invoice No", [Str "INV001"; Str "INV003"]);
                (Text "Party Name", [Str "Acme Co"; Str "Bolt"]);
                (Text "Taxable Amount", [Int 1000; Int 75]);
                (Text "GST Rate", [Str "18%"; Str "nan%"]) ] |}.
Proof. vm_compute. reflexivity. Qed.

Example scenario_missing_column :
  process_file (Some 0) "Sales" short_world
  = (Returned None,
     {| heap := [pd.strip_columns short_report];
        page := [Error "Error in Sales file: Could not find the 'Invoice No' column. Please check the file."] |}).
Proof. vm_compute. reflexivity. Qed.

(** * The claims *)

Lemma present_stripped d a :
  present d a ↔ Text a ∈ pd.str_strip <$> pd.columns d.
Proof.
  unfold present. rewrite list_elem_of_fmap. split.
  - intros (s & Hin & Htrim%PyStrFacts.trimmed_strip).
    exists (Text s). split; [|done]. cbn [pd.str_strip]. by rewrite Htrim.
  - intros ([s|n] & E & Hin); [|done]. injection E as ->.
    exists s. split; [done|]. apply PyStrFacts.strip_trimmed.
Qed.

Lemma covered_present d :
  covered d ↔
  ∀ field aliases, (field, aliases) ∈ col_map →
    ∃ a, a ∈ aliases ∧ present d a.
Proof.
  unfold covered. split; intros H field aliases Hin.
  - destruct (H field aliases Hin) as (a & Ha & Hp). exists a.
    by rewrite present_stripped.
  - destruct (H field aliases Hin) as (a & Ha & Hp). exists a.
    by rewrite <- present_stripped.
Qed.

(** C1.  On [numeric_report], whose header holds numbers only, no field
    has an alias among the labels; yet [process_file] reports no error
    and returns nothing: line 74 raises [AttributeError], and the page
    is as it was. *)
Theorem numeric_header_raises :
  (∀ field aliases a,
     (field, aliases) ∈ col_map → a ∈ aliases → ¬ present numeric_report a)
  ∧ process_file (Some 0) "Purchase" numeric_world
    = (Raised (AttributeError "Can only use .str accessor with string values!"),
       {| heap := [numeric_report]; page := [] |}).
Proof.
  split; [|vm_compute; reflexivity].
  intros field aliases a _ _ (s & Hs & _).
  unfold pd.columns, numeric_report in Hs. cbn in Hs.
  repeat (apply elem_of_cons in Hs as [Hs|Hs]; [discriminate Hs|]).
  by apply elem_of_nil in Hs.
Qed.

(** X16.  Column resolution in [process_file], for a table with a text
    label.  It succeeds exactly when each of the five logical fields has
    at least one alias among the column names with their leading and
    trailing white space removed.  On success the detection loop maps
    each field to the first alias of its list, in declared order, that
    is present.  On failure [process_file] shows one error naming the
    file type and the first field without an alias, returns [None] and
    creates no table. *)
Theorem column_resolution r ft w d :
  heap w !! r = Some d →
  pd.has_text d = true →
  let resolvable :=
    ∀ field aliases, (field, aliases) ∈ col_map →
      ∃ a, a ∈ aliases ∧ present d a in
  ((∃ r' w', process_file (Some r) ft w = (Returned (Some r'), w'))
   ↔ resolvable)
  ∧ (resolvable →
     ∃ fc w1,
       find_columns r ft col_map ∅ w = (Returned (Some fc), w1)
       ∧ ∀ field aliases, (field, aliases) ∈ col_map →
           ∃ i a, fc !! field = Some a
                  ∧ aliases !! i = Some a
                  ∧ present d a
                  ∧ ∀ j b, j < i → aliases !! j = Some b → ¬ present d b)
  ∧ (¬ resolvable →
     ∃ i field aliases,
       col_map !! i = Some (field, aliases)
       ∧ (∀ a, a ∈ aliases → ¬ present d a)
       ∧ (∀ j f p, j < i → col_map !! j = Some (f, p) →
            ∃ a, a ∈ p ∧ present d a)
       ∧ process_file (Some r) ft w
         = (Returned None,
            {| heap := <[r := pd.strip_columns d]> (heap w);
               page := page w
                       ++ [Error ("Error in " +:+ ft
                                  +:+ " file: Could not find the '" +:+ field
                                  +:+ "' column. Please check the file.")] |})).
Proof.
  intros Hd Ht resolvable.
  assert (Hcov : covered d ↔ resolvable) by apply covered_present.
  destruct (process_file_cases r ft w d Hd Ht)
    as [(a1 & a2 & a3 & a4 & a5 & Hres & Hfind & Hp)
       |(i & sn & pn & Hi & Hnone & Hbefore & Hfind & Hp)].
  - pose proof (Resolved_covered _ _ _ _ _ _ Hres) as Hc.
    split; [|split].
    + split; [by intros _; apply Hcov|]. intros _. eauto.
    + intros _. eexists _, _. split; [exact Hfind|].
      destruct (found_dict_lookup a1 a2 a3 a4 a5) as (L1 & L2 & L3 & L4 & L5).
      destruct Hres as [H1 H2 H3 H4 H5]. unfold found_in in *.
      rewrite strip_columns_labels in *.
      assert (Hfirst : ∀ aliases a,
        first_present aliases (pd.str_strip <$> pd.columns d) = Some a →
        ∃ i, aliases !! i = Some a ∧ present d a
             ∧ ∀ j b, j < i → aliases !! j = Some b → ¬ present d b).
      { intros aliases a (i & Hl & Hin & Hno)%first_present_Some.
        exists i. split; [done|]. split; [by apply present_stripped|].
        intros j b Hj Hb Hpb%present_stripped. by eapply Hno. }
      intros field aliases Hin.
      apply col_map_cases in Hin as [Hc'|[Hc'|[Hc'|[Hc'|Hc']]]]; simplify_eq.
      * destruct (Hfirst _ _ H1) as (i & ? & ? & ?). eauto 10.
      * destruct (Hfirst _ _ H2) as (i & ? & ? & ?). eauto 10.
      * destruct (Hfirst _ _ H3) as (i & ? & ? & ?). eauto 10.
      * destruct (Hfirst _ _ H4) as (i & ? & ? & ?). eauto 10.
      * destruct (Hfirst _ _ H5) as (i & ? & ? & ?). eauto 10.
    + intros Hn. destruct Hn. by apply Hcov.
  - assert (Hncov : ¬ covered d).
    { intros Hc. destruct (Hc sn pn) as (a & Ha & Hin).
      - by eapply list_elem_of_lookup_2.
      - by eapply first_present_None in Hnone. }
    split; [|split].
    + split.
      * intros (r' & w' & Hrun). by rewrite Hp in Hrun.
      * intros Hr. destruct Hncov. by apply Hcov.
    + intros Hr. destruct Hncov. by apply Hcov.
    + intros _. exists i, sn, pn. split_and!; [done| | |exact Hp].
      * intros a Ha Hpa%present_stripped.
        by eapply first_present_None in Hnone.
      * intros j f p Hj Hl. destruct (Hbefore j f p Hj Hl) as [a Ha].
        exists a. apply first_present_in in Ha as [? ?].
        split; [done|]. by apply present_stripped.
Qed.

Lemma column_resolution_witness :
  heap caller_world !! 0 = Some purchase_report
  ∧ pd.has_text purchase_report = true
  ∧ present purchase_report "Invoice Date"
  ∧ present purchase_report "Receiver Name"
  ∧ (∃ r' w', process_file (Some 0) "Purchase" caller_world
              = (Returned (Some r'), w'))
  ∧ process_file (Some 0) "Sales" short_world
    = (Returned None,
       {| heap := [pd.strip_columns short_report];
          page := [Error "Error in Sales file: Could not find the 'Invoice No' column. Please check the file."] |}).
Proof.
  assert (Hlabel : ∀ (d : DataFrame) i s pre post a,
            pd.columns d !! i = Some (Text s) →
            s = pre +:+ a +:+ post →
            PyStr.blank pre = true → PyStr.blank post = true →
            PyStr.clean_head a → PyStr.clean_last a →
            present d a).
  { intros d i s pre post a Hi E B1 B2 C1 C2. exists s.
    split; [by eapply list_elem_of_lookup_2|]. by exists pre, post. }
  assert (P1 : present purchase_report "Invoice Date").
  { by apply (Hlabel purchase_report 0 " Invoice Date" " " EmptyString). }
  assert (P2 : present purchase_report "Voucher No.").
  { by apply (Hlabel purchase_report 1 "Voucher No." EmptyString EmptyString). }
  assert (P3 : present purchase_report "Receiver Name").
  { by apply (Hlabel purchase_report 2 "Receiver Name " EmptyString " "). }
  assert (P4 : present purchase_report "Taxable value").
  { by apply (Hlabel purchase_report 4 "Taxable value" EmptyString EmptyString). }
  assert (P5 : present purchase_report "Rate").
  { by apply (Hlabel purchase_report 5 "Rate" EmptyString EmptyString). }
  assert (S1 : present short_report "Invoice Date").
  { by apply (Hlabel short_report 0 "Invoice Date " EmptyString " "). }
  assert (Hno : ∀ a, a ∈ ["Invoice No."; "Invoice Number"; "Voucher No."] →
                     ¬ present short_report a).
  { intros a Ha (s & Hs & Htrim%PyStrFacts.trimmed_strip).
    unfold pd.columns, short_report in Hs. cbn in Hs.
    repeat (apply elem_of_cons in Hs as [Hs|Hs];
            [injection Hs as ->; vm_compute in Htrim; subst a;
             repeat (apply elem_of_cons in Ha as [Ha|Ha]; [discriminate Ha|]);
             by apply elem_of_nil in Ha|]).
    by apply elem_of_nil in Hs. }
  split; [reflexivity|]. split; [reflexivity|].
  split; [exact P1|]. split; [exact P3|]. split.
  - apply (column_resolution 0 "Purchase" caller_world purchase_report
             eq_refl eq_refl).
    intros field aliases Hin.
    apply col_map_cases in Hin as [Hc|[Hc|[Hc|[Hc|Hc]]]];
      injection Hc as -> ->.
    + exists "Invoice Date". split; [left|exact P1].
    + exists "Voucher No.". split; [do 2 right; left|exact P2].
    + exists "Receiver Name". split; [right; left|exact P3].
    + exists "Taxable value". split; [left|exact P4].
    + exists "Rate". split; [left|exact P5].
  - destruct (column_resolution 0 "Sales" short_world short_report
                eq_refl eq_refl) as (_ & _ & Hfail).
    destruct Hfail as (i & field & aliases & Hi & Hnone & Hbefore & Hrun).
    { intros H.
      destruct (H "Invoice No" ["Invoice No."; "Invoice Number"; "Voucher No."])
        as (a & Ha & Hp).
      - unfold col_map. right. left.
      - exact (Hno a Ha Hp). }
    destruct i as [|[|i]].
    + injection Hi as <- <-. destruct (Hnone "Invoice Date"); [left|exact S1].
    + injection Hi as <- <-. exact Hrun.
    + destruct (Hbefore 1 "Invoice No"
                  ["Invoice No."; "Invoice Number"; "Voucher No."])
        as (a & Ha & Hp); [lia|reflexivity|].
      destruct (Hno a Ha Hp).
Defined.

(** C2.  When resolution succeeds, [process_file] drops exactly the rows
    with a missing Party Name or Taxable Amount value: a row is dropped
    if and only if one of the columns resolved for these two fields
    holds a missing value in it, the other columns play no part, every
    output column holds the cells of the kept rows of a source column,
    and the row count is the input count minus the number of dropped
    rows.  A table without rows, or with every row dropped, gives an
    empty table and no error. *)
Theorem missing_rows_dropped r ft w d :
  heap w !! r = Some d →
  (covered d →
   ∃ r' w', process_file (Some r) ft w = (Returned (Some r'), w')
            ∧ page w' = page w)
  ∧ ∀ r' w',
      process_file (Some r) ft w = (Returned (Some r'), w') →
      ∃ out party taxable,
        heap w' !! r' = Some out
        ∧ found_in d ["Party Name"; "Receiver Name"] party
        ∧ found_in d ["Taxable value"; "Taxable Value"] taxable
        ∧ let required := source_cells d party ++ source_cells d taxable in
          let kept := kept_rows d party taxable in
          (∀ i, i < pd.len d →
             ∃ b, kept !! i = Some b
                  ∧ (b = false ↔
                     ∃ col c, col ∈ required ∧ col !! i = Some c
                              ∧ isna c = true))
          ∧ df_index out = pd.keep kept (df_index d)
          ∧ (∀ label col, (label, col) ∈ df_data out → label ≠ Text "S/N" →
               ∃ src, src ∈ (df_data d).*2
                      ∧ (col = pd.keep kept src
                         ∨ col = percent <$> pd.keep kept src))
          ∧ pd.len out
            = pd.len d - length (filter (λ b, b = false) kept)
          ∧ (pd.len d = 0 → pd.len out = 0)
          ∧ (Forall (λ b, b = false) kept → pd.len out = 0).
Proof.
  intros Hd. split.
  - intros Hcov.
    destruct (resolution_outcome r ft w d Hd (covered_has_text d Hcov))
      as [(a1 & a2 & a3 & a4 & a5 & Hres & Hp)|(Hn & _)]; [|done].
    eexists _, _. split; [exact Hp|done].
  - intros r' w' Hrun.
    destruct (process_file_returns _ _ _ _ _ _ Hd Hrun)
      as (a1 & a2 & a3 & a4 & a5 & Hres & -> & -> & Hout).
    exists (clean_table d a1 a2 a3 a4 a5), a3, a4.
    split_and!; [done|apply Hres..|]. intros required kept.
    assert (Hlen : pd.len (clean_table d a1 a2 a3 a4 a5)
                   = pd.len d - length (filter (λ b, b = false) kept)).
    { unfold pd.len, clean_table. cbn [df_index].
      apply keep_count, kept_rows_length. }
    split_and!.
    + intros i Hi. eexists. split; [by apply kept_rows_lookup|].
      apply row_complete_false.
    + done.
    + apply clean_table_columns.
    + done.
    + intros H0. rewrite Hlen, H0. done.
    + intros Hall. unfold pd.len, clean_table. cbn [df_index]. fold kept.
      by rewrite keep_all_false.
Qed.

Lemma missing_rows_dropped_witness :
  heap caller_world !! 0 = Some purchase_report
  ∧ process_file (Some 0) "Purchase" caller_world
    = (Returned (Some 3), (process_file (Some 0) "Purchase" caller_world).2)
  ∧ ∃ out,
      heap (process_file (Some 0) "Purchase" caller_world).2 !! 3 = Some out
      ∧ df_index out = [0; 2]
      ∧ pd.len out = 3 - 1.
Proof.
  split; [reflexivity|]. split; [vm_compute; reflexivity|].
  destruct (missing_rows_dropped 0 "Purchase" caller_world purchase_report
              eq_refl) as [_ H].
  destruct (H 3 (process_file (Some 0) "Purchase" caller_world).2)
    as (out & party & taxable & Ho & Hp & Ht & _ & Hi & _ & Hn & _).
  - vm_compute; reflexivity.
  - unfold found_in in Hp, Ht.
    vm_compute in Hp. vm_compute in Ht.
    injection Hp as <-. injection Ht as <-.
    exists out. split; [exact Ho|]. split; [exact Hi|exact Hn].
Defined.

(** C3.  In every clean table [process_file] returns, each GST Rate
    value is the string form of the source cell of that row followed by
    ['%']: the GST Rate column is the source Rate column, restricted to
    the kept rows, with [str] applied and ['%'] appended; nothing is
    parsed or validated.  The integer 18 and the text 18 both give
    [18%]. *)
Theorem gst_rate_formatted r ft w d r' w' :
  heap w !! r = Some d →
  process_file (Some r) ft w = (Returned (Some r'), w') →
  ∃ out party taxable,
    heap w' !! r' = Some out
    ∧ found_in d ["Party Name"; "Receiver Name"] party
    ∧ found_in d ["Taxable value"; "Taxable Value"] taxable
    ∧ let kept := kept_rows d party taxable in
      (pd.labelled "GST Rate" (df_data out)).*2
      = (λ col, (λ c, Str (py_str c +:+ "%")) <$> pd.keep kept col)
          <$> source_cells d "Rate"
      ∧ (∀ col i v,
           col ∈ (pd.labelled "GST Rate" (df_data out)).*2 →
           col !! i = Some v →
           ∃ src_col src,
             src_col ∈ source_cells d "Rate"
             ∧ pd.keep kept src_col !! i = Some src
             ∧ v = Str (py_str src +:+ "%"))
      ∧ Str (py_str (Int 18) +:+ "%") = Str "18%"
      ∧ Str (py_str (Str "18") +:+ "%") = Str "18%".
Proof.
  intros Hd Hrun.
  destruct (process_file_returns _ _ _ _ _ _ Hd Hrun)
    as (a1 & a2 & a3 & a4 & a5 & Hres & -> & -> & Hout).
  exists (clean_table d a1 a2 a3 a4 a5), a3, a4.
  split_and!; [done|apply Hres..|]. intros kept.
  pose proof (Resolved_rate _ _ _ _ _ _ Hres) as ->.
  pose proof (clean_table_rate d a1 a2 a3 a4 "Rate") as Hrate.
  split_and!; [exact Hrate| |done..].
  intros col i v Hcol Hv. rewrite Hrate in Hcol.
  apply list_elem_of_fmap in Hcol as (src_col & -> & Hsrc).
  apply list_lookup_fmap_Some in Hv as (src & -> & Hv).
  by exists src_col, src.
Qed.

Lemma gst_rate_formatted_witness :
  heap caller_world !! 0 = Some purchase_report
  ∧ process_file (Some 0) "Purchase" caller_world
    = (Returned (Some 3), (process_file (Some 0) "Purchase" caller_world).2)
  ∧ ∃ out,
      heap (process_file (Some 0) "Purchase" caller_world).2 !! 3 = Some out
      ∧ (pd.labelled "GST Rate" (df_data out)).*2 = [[Str "18%"; Str "nan%"]].
Proof.
  split; [reflexivity|]. split; [vm_compute; reflexivity|].
  destruct (gst_rate_formatted 0 "Purchase" caller_world purchase_report 3
              (process_file (Some 0) "Purchase" caller_world).2)
    as (out & party & taxable & Hout & Hp & Ht & Hrate & _).
  - reflexivity.
  - vm_compute; reflexivity.
  - exists out. split; [exact Hout|].
    unfold found_in in Hp, Ht.
    vm_compute in Hp. vm_compute in Ht.
    injection Hp as <-. injection Ht as <-.
    rewrite Hrate. vm_compute. reflexivity.
Defined.

(** C4.  In every clean table [process_file] returns, the first column
    is S/N and holds the integers 1 to N in row order, N being the
    number of rows: position [i] (from 0) holds [i + 1].  No other
    column is labelled S/N, the serials are duplicate-free and strictly
    increasing, whatever rows the filter dropped. *)
Theorem serial_numbers r ft w d r' w' :
  heap w !! r = Some d →
  process_file (Some r) ft w = (Returned (Some r'), w') →
  ∃ out sn rest,
    heap w' !! r' = Some out
    ∧ df_data out = (Text "S/N", sn) :: rest
    ∧ (Text "S/N" ∉ rest.*1)
    ∧ length sn = pd.len out
    ∧ (∀ i, i < pd.len out → sn !! i = Some (Int (Z.of_nat i + 1)))
    ∧ NoDup sn
    ∧ (∀ i j x y, i < j → sn !! i = Some (Int x) → sn !! j = Some (Int y) →
         (x < y)%Z).
Proof.
  intros Hd Hrun.
  destruct (process_file_returns _ _ _ _ _ _ Hd Hrun)
    as (a1 & a2 & a3 & a4 & a5 & Hres & -> & -> & Hout).
  set (out := clean_table d a1 a2 a3 a4 a5) in *.
  set (n := pd.len out).
  assert (Hsn : ∀ i, i < n →
            pd.range 1 (n + 1) !! i = Some (Int (Z.of_nat i + 1))).
  { intros i Hi. unfold pd.range.
    rewrite list_lookup_fmap, lookup_seq_lt by lia. simpl. do 2 f_equal. lia. }
  assert (Hlen : length (pd.range 1 (n + 1)) = n).
  { unfold pd.range. rewrite length_fmap, length_seq. lia. }
  exists out, (pd.range 1 (n + 1)), (tail (df_data out)).
  split_and!; [done|done| |done|done| |].
  - apply (body_columns d a1 a2 a3 a4 a5).
  - apply NoDup_alt. intros i j x Hi Hj.
    pose proof (lookup_lt_Some _ _ _ Hi). pose proof (lookup_lt_Some _ _ _ Hj).
    rewrite Hsn in Hi by lia. rewrite Hsn in Hj by lia.
    simplify_eq. lia.
  - intros i j x y Hij Hi Hj.
    pose proof (lookup_lt_Some _ _ _ Hi). pose proof (lookup_lt_Some _ _ _ Hj).
    rewrite Hsn in Hi by lia. rewrite Hsn in Hj by lia.
    simplify_eq. lia.
Qed.

Lemma serial_numbers_witness :
  heap caller_world !! 0 = Some purchase_report
  ∧ process_file (Some 0) "Purchase" caller_world
    = (Returned (Some 3), (process_file (Some 0) "Purchase" caller_world).2)
  ∧ ∃ out sn rest,
      heap (process_file (Some 0) "Purchase" caller_world).2 !! 3 = Some out
      ∧ df_data out = (Text "S/N", sn) :: rest
      ∧ length sn = pd.len out
      ∧ ∀ i, i < pd.len out → sn !! i = Some (Int (Z.of_nat i + 1)).
Proof.
  split; [reflexivity|]. split; [vm_compute; reflexivity|].
  destruct (serial_numbers 0 "Purchase" caller_world purchase_report 3
              (process_file (Some 0) "Purchase" caller_world).2)
    as (out & sn & rest & Ho & Hd & _ & Hl & Hs & _).
  - reflexivity.
  - vm_compute; reflexivity.
  - exists out, sn, rest.
    split; [exact Ho|]. split; [exact Hd|]. split; [exact Hl|exact Hs].
Defined.

(** C10.  A row that survives the missing-value filter and whose source
    Rate cell is missing stays in the clean table, at the position given
    by the number of kept rows before it, and its GST Rate value is the
    text [nan%]. *)
Theorem missing_rate_kept r ft w d r' w' :
  heap w !! r = Some d →
  process_file (Some r) ft w = (Returned (Some r'), w') →
  ∃ out party taxable,
    heap w' !! r' = Some out
    ∧ found_in d ["Party Name"; "Receiver Name"] party
    ∧ found_in d ["Taxable value"; "Taxable Value"] taxable
    ∧ let kept := kept_rows d party taxable in
      ∀ k src_col j,
        source_cells d "Rate" !! k = Some src_col →
        src_col !! j = Some NaN →
        kept !! j = Some true →
        df_index out !! rank kept j = df_index d !! j
        ∧ ∃ col,
            (pd.labelled "GST Rate" (df_data out)).*2 !! k = Some col
            ∧ col !! rank kept j = Some (Str "nan%").
Proof.
  intros Hd Hrun.
  destruct (process_file_returns _ _ _ _ _ _ Hd Hrun)
    as (a1 & a2 & a3 & a4 & a5 & Hres & -> & -> & Hout).
  exists (clean_table d a1 a2 a3 a4 a5), a3, a4.
  split_and!; [done|apply Hres..|]. intros kept k src_col j Hk Hj Hkept.
  split.
  - unfold clean_table. cbn [df_index]. by apply keep_lookup.
  - pose proof (Resolved_rate _ _ _ _ _ _ Hres) as ->.
    rewrite clean_table_rate.
    eexists. rewrite list_lookup_fmap, Hk. split; [done|].
    rewrite list_lookup_fmap. fold kept.
    by rewrite (keep_lookup _ _ _ Hkept), Hj.
Qed.

Lemma missing_rate_kept_witness :
  heap caller_world !! 0 = Some purchase_report
  ∧ process_file (Some 0) "Purchase" caller_world
    = (Returned (Some 3), (process_file (Some 0) "Purchase" caller_world).2)
  ∧ ∃ out col,
      heap (process_file (Some 0) "Purchase" caller_world).2 !! 3 = Some out
      ∧ (pd.labelled "GST Rate" (df_data out)).*2 !! 0 = Some col
      ∧ col !! 1 = Some (Str "nan%").
Proof.
  split; [reflexivity|]. split; [vm_compute; reflexivity|].
  destruct (missing_rate_kept 0 "Purchase" caller_world purchase_report 3
              (process_file (Some 0) "Purchase" caller_world).2)
    as (out & party & taxable & Hout & Hp & Ht & H).
  - reflexivity.
  - vm_compute; reflexivity.
  - unfold found_in in Hp, Ht.
    vm_compute in Hp. vm_compute in Ht.
    injection Hp as <-. injection Ht as <-.
    destruct (H 0 [Int 18; Str "18"; NaN] 2) as (_ & col & Hcol & Hcell);
      [reflexivity..|].
    exists out, col. split; [exact Hout|]. split; [exact Hcol|exact Hcell].
Defined.

(** ** Running twice *)

Lemma source_cells_strip d a :
  source_cells (pd.strip_columns d) a = source_cells d a.
Proof. unfold source_cells. by rewrite strip_columns_idemp. Qed.

Lemma clean_table_strip d a1 a2 a3 a4 a5 :
  clean_table (pd.strip_columns d) a1 a2 a3 a4 a5 = clean_table d a1 a2 a3 a4 a5.
Proof.
  unfold clean_table, clean_body, kept_rows.
  by rewrite !source_cells_strip.
Qed.

Lemma Resolved_strip d a1 a2 a3 a4 a5 :
  Resolved (pd.strip_columns d) a1 a2 a3 a4 a5 ↔ Resolved d a1 a2 a3 a4 a5.
Proof.
  split; intros [H1 H2 H3 H4 H5]; unfold found_in in *.
  - rewrite strip_columns_idemp in *. by constructor.
  - constructor; unfold found_in; by rewrite strip_columns_idemp.
Qed.

Lemma covered_strip d : covered (pd.strip_columns d) ↔ covered d.
Proof.
  unfold covered.
  by rewrite <- !strip_columns_labels, strip_columns_idemp.
Qed.

Lemma heap_after_caller r d h a1 a2 a3 a4 a5 :
  r < length h →
  heap_after r d h a1 a2 a3 a4 a5 !! r = Some (pd.strip_columns d).
Proof.
  intros Hr. rewrite heap_after_old by done.
  by apply list_lookup_insert_eq.
Qed.

Lemma heap_after_length r d h a1 a2 a3 a4 a5 :
  length (heap_after r d h a1 a2 a3 a4 a5) = S (S (S (length h))).
Proof.
  unfold heap_after. rewrite !length_app, length_insert. simpl. lia.
Qed.

(** C8.  Running [process_file] a second time on the table it was first
    run on returns a clean table identical to the first one (or no table
    both times), and the first result is left as it was.  The two runs
    return for every table with a text label; a first run that raises
    has changed nothing, and the second run raises the same. *)
Theorem process_file_twice r ft w d :
  heap w !! r = Some d →
  ∃ out1 w1 out2 w2,
    process_file (Some r) ft w = (out1, w1)
    ∧ process_file (Some r) ft w1 = (out2, w2)
    ∧ match out1, out2 with
      | Returned o1, Returned o2 =>
          table_of w2 o2 = table_of w1 o1
          ∧ table_of w2 o1 = table_of w1 o1
          ∧ (is_Some o1 ↔ is_Some o2)
          ∧ (is_Some o1 → is_Some (table_of w1 o1))
      | Raised e1, Raised e2 => e1 = e2 ∧ w1 = w ∧ w2 = w
      | _, _ => False
      end
    ∧ (pd.has_text d = true → ∃ o1, out1 = Returned o1).
Proof.
  intros Hd. destruct (pd.has_text d) eqn:Ht.
  2:{ pose proof (process_file_raises r ft w d Hd Ht) as Hp.
      eexists _, _, _, _. split; [exact Hp|]. split; [exact Hp|].
      split; [done|]. intros [=]. }
  assert (Hlt : r < length (heap w)) by (by eapply lookup_lt_Some).
  destruct (resolution_outcome r ft w d Hd Ht)
    as [(a1 & a2 & a3 & a4 & a5 & Hres & Hp)|(Hn & sn & Hp)].
  - set (w1 := {| heap := heap_after r d (heap w) a1 a2 a3 a4 a5;
                  page := page w |}) in *.
    assert (Hd1 : heap w1 !! r = Some (pd.strip_columns d))
      by (by apply heap_after_caller).
    pose proof (proj2 (Resolved_strip _ _ _ _ _ _) Hres) as Hres1.
    pose proof (process_file_found r ft w1 _ _ _ _ _ _ Hd1 Hres1) as Hp2.
    eexists _, _, _, _. split; [exact Hp|]. split; [exact Hp2|].
    split; [|by eauto].
    unfold table_of. cbn [mbind option_bind heap].
    rewrite heap_after_result, clean_table_strip.
    subst w1. cbn [heap].
    rewrite heap_after_result.
    split_and!; [done| |done|by eauto].
    rewrite heap_after_old by (rewrite heap_after_length; lia).
    rewrite list_lookup_insert_ne by lia.
    apply heap_after_result.
  - set (w1 := after_detection r d w _) in *.
    assert (Hd1 : heap w1 !! r = Some (pd.strip_columns d)).
    { subst w1. unfold after_detection. cbn [heap].
      by apply list_lookup_insert_eq. }
    destruct (resolution_outcome r ft w1 _ Hd1)
      as [(a1 & a2 & a3 & a4 & a5 & Hres & _)|(_ & sn' & Hp2)].
    { by rewrite has_text_strip. }
    { destruct Hn. apply covered_strip. by eapply Resolved_covered. }
    eexists _, _, _, _. split; [exact Hp|]. split; [exact Hp2|].
    split; [|by eauto].
    repeat split; try done; by intros [? [=]].
Qed.

Lemma process_file_twice_witness :
  heap caller_world !! 0 = Some purchase_report
  ∧ pd.has_text purchase_report = true
  ∧ ∃ o1 w1 o2 w2,
      process_file (Some 0) "Purchase" caller_world = (Returned o1, w1)
      ∧ process_file (Some 0) "Purchase" w1 = (Returned o2, w2)
      ∧ table_of w2 o2 = table_of w1 o1.
Proof.
  split; [reflexivity|]. split; [reflexivity|].
  destruct (process_file_twice 0 "Purchase" caller_world purchase_report
              eq_refl) as (out1 & w1 & out2 & w2 & H1 & H2 & H3 & Hret).
  destruct (Hret eq_refl) as [o1 ->].
  destruct out2 as [o2|e]; [|destruct H3].
  exists o1, w1, o2, w2. split; [exact H1|]. split; [exact H2|exact (proj1 H3)].
Defined.

(** C9.  [process_file] changes the caller's table in place: after a
    call that returns, with a table or without, the object holds the
    same row index and the same cells, every text label has lost its
    leading and trailing white space and nothing else, and a label that
    is not text has become NaN.  The cells are never changed, the other
    objects of the caller are left alone, and a returned table is a new
    object.  A call that raises has changed nothing. *)
Theorem caller_table_after r ft w d :
  heap w !! r = Some d →
  ∃ out w' d',
    process_file (Some r) ft w = (out, w')
    ∧ heap w' !! r = Some d'
    ∧ (df_data d').*2 = (df_data d).*2
    ∧ df_index d' = df_index d
    ∧ (∀ i, i ≠ r → i < length (heap w) → heap w' !! i = heap w !! i)
    ∧ match out with
      | Returned o =>
          (∀ i s, pd.columns d !! i = Some (Text s) →
             ∃ t, pd.columns d' !! i = Some (Text t) ∧ PyStr.trimmed s t)
          ∧ (∀ i n, pd.columns d !! i = Some (Number n) →
               pd.columns d' !! i = Some (Number "nan"))
          ∧ (o = None ↔ ¬ covered d)
          ∧ (∀ r', o = Some r' → length (heap w) ≤ r' ∧ r' ≠ r)
      | Raised e =>
          e = AttributeError "Can only use .str accessor with string values!"
          ∧ pd.has_text d = false
          ∧ w' = w
      end.
Proof.
  intros Hd.
  assert (Hlt : r < length (heap w)) by (by eapply lookup_lt_Some).
  destruct (pd.has_text d) eqn:Ht.
  2:{ exists (Raised pd.accessor_error), w, d.
      split; [by apply (process_file_raises r ft w d)|]. by split_and!. }
  assert (Hlabels :
    (∀ i s, pd.columns d !! i = Some (Text s) →
       ∃ t, pd.columns (pd.strip_columns d) !! i = Some (Text t)
            ∧ PyStr.trimmed s t)
    ∧ (∀ i n, pd.columns d !! i = Some (Number n) →
         pd.columns (pd.strip_columns d) !! i = Some (Number "nan"))).
  { rewrite strip_columns_labels. split.
    - intros i s Hi. exists (PyStr.strip s).
      rewrite list_lookup_fmap, Hi. split; [done|].
      apply PyStrFacts.strip_trimmed.
    - intros i n Hi. by rewrite list_lookup_fmap, Hi. }
  destruct Hlabels as [Htext Hnumber].
  destruct (resolution_outcome r ft w d Hd Ht)
    as [(a1 & a2 & a3 & a4 & a5 & Hres & Hp)|(Hn & sn & Hp)].
  - eexists _, _, (pd.strip_columns d). split; [exact Hp|]. cbn [heap].
    split_and!.
    + by apply heap_after_caller.
    + apply strip_columns_cells.
    + done.
    + intros i Hi Hil. rewrite heap_after_old by done.
      by apply list_lookup_insert_ne.
    + exact Htext.
    + exact Hnumber.
    + split; [done|]. intros Hn. destruct Hn. by eapply Resolved_covered.
    + intros r' [= <-]. lia.
  - eexists _, _, (pd.strip_columns d). split; [exact Hp|].
    unfold after_detection. cbn [heap].
    split_and!.
    + by apply list_lookup_insert_eq.
    + apply strip_columns_cells.
    + done.
    + intros i Hi Hil. by apply list_lookup_insert_ne.
    + exact Htext.
    + exact Hnumber.
    + done.
    + done.
Qed.

Lemma caller_table_after_witness :
  heap mixed_world !! 0 = Some mixed_report
  ∧ ∃ w' d',
      process_file (Some 0) "Sales" mixed_world = (Returned None, w')
      ∧ heap w' !! 0 = Some d'
      ∧ pd.columns mixed_report !! 0 = Some (Text "  Invoice Date ")
      ∧ pd.columns d' !! 0 = Some (Text "Invoice Date")
      ∧ pd.columns d' !! 1 = Some (Number "nan")
      ∧ (df_data d').*2 = (df_data mixed_report).*2.
Proof.
  split; [reflexivity|].
  destruct (caller_table_after 0 "Sales" mixed_world mixed_report eq_refl)
    as (out & w' & d' & Hp & Hd' & Hcells & _ & _ & Hout).
  vm_compute in Hp. injection Hp as <- <-.
  destruct Hout as (Htext & Hnumber & _).
  destruct (Htext 0 "  Invoice Date " eq_refl) as (t & Ht & Htrim).
  apply PyStrFacts.trimmed_strip in Htrim. vm_compute in Htrim. subst t.
  eexists _, d'.
  split; [reflexivity|]. split; [exact Hd'|]. split; [reflexivity|].
  split; [exact Ht|]. split; [exact (Hnumber 1 "2024" eq_refl)|exact Hcells].
Defined.

(** ** Columns of the clean table *)

Lemma labelled_absent key (data : list (Label * Series)) :
  Text key ∉ data.*1 → pd.labelled key data = [].
Proof.
  unfold pd.labelled. induction data as [|[l c] data IH]; [done|].
  rewrite fmap_cons, not_elem_of_cons. cbn [fst]. intros [Hne Hnin].
  rewrite filter_cons. cbn [fst]. rewrite decide_False by done. by apply IH.
Qed.

Lemma elem_of_texts key (labels : list Label) :
  key ∈ omap pd.label_text labels ↔ Text key ∈ labels.
Proof.
  rewrite list_elem_of_omap. split.
  - by intros ([s|n] & Hin & [= ->]).
  - intros Hin. by exists (Text key).
Qed.

Lemma labelled_unique key (data : list (Label * Series)) :
  NoDup (omap pd.label_text data.*1) →
  Text key ∈ data.*1 →
  ∃ c, pd.labelled key data = [(Text key, c)].
Proof.
  unfold pd.labelled.
  induction data as [|[l c] data IH]; [by intros _ ?%elem_of_nil|].
  rewrite fmap_cons. cbn [fst]. intros Hnd Hin.
  rewrite filter_cons. cbn [fst]. case_decide as Hk.
  - subst l. cbn [omap list_omap pd.label_text] in Hnd.
    apply NoDup_cons in Hnd as [Hl Hnd].
    exists c. f_equal. apply labelled_absent. by rewrite <- elem_of_texts.
  - apply elem_of_cons in Hin as [E|Hin]; [by destruct Hk|]. apply IH; [|done].
    destruct l as [s|n]; cbn [omap list_omap pd.label_text] in Hnd; [|done].
    by apply NoDup_cons in Hnd as [_ Hnd].
Qed.

Lemma texts_strip d :
  pd.texts (pd.strip_columns d) = PyStr.strip <$> pd.texts d.
Proof.
  unfold pd.texts. rewrite strip_columns_labels.
  induction (pd.columns d) as [|[s|n] ls IH]; [done| |exact IH].
  cbn. by rewrite <- IH.
Qed.

Lemma source_cells_unique d a :
  NoDup (PyStr.strip <$> pd.texts d) →
  Text a ∈ pd.columns (pd.strip_columns d) →
  ∃ c, source_cells d a = [c].
Proof.
  rewrite <- texts_strip. intros Hnd Hin.
  destruct (labelled_unique a _ Hnd Hin) as [c Hc].
  exists c. unfold source_cells. by rewrite Hc.
Qed.

(** X11.  With pairwise distinct trimmed labels the clean table has the
    six columns, in order, and so has its sheet. *)
Lemma clean_columns_distinct r ft w d r' w' :
  heap w !! r = Some d →
  NoDup (PyStr.strip <$> pd.texts d) →
  process_file (Some r) ft w = (Returned (Some r'), w') →
  ∃ out, heap w' !! r' = Some out
         ∧ pd.columns out = Text <$> clean_columns
         ∧ head (pd.to_excel out false) = Some (Str <$> clean_columns).
Proof.
  intros Hd Hnd Hrun.
  destruct (process_file_returns _ _ _ _ _ _ Hd Hrun)
    as (a1 & a2 & a3 & a4 & a5 & Hres & -> & -> & Hout).
  exists (clean_table d a1 a2 a3 a4 a5). split; [done|].
  pose proof (resolved_present _ _ _ _ _ _ Hres) as Hall.
  rewrite !Forall_cons in Hall. destruct Hall as (P1 & P2 & P3 & P4 & P5 & _).
  destruct (source_cells_unique d a1 Hnd P1) as [c1 E1].
  destruct (source_cells_unique d a2 Hnd P2) as [c2 E2].
  destruct (source_cells_unique d a3 Hnd P3) as [c3 E3].
  destruct (source_cells_unique d a4 Hnd P4) as [c4 E4].
  destruct (source_cells_unique d a5 Hnd P5) as [c5 E5].
  assert (pd.columns (clean_table d a1 a2 a3 a4 a5) = Text <$> clean_columns)
    as Hc.
  { unfold pd.columns, clean_table, clean_body. cbn [df_data].
    by rewrite E1, E2, E3, E4, E5. }
  split; [done|]. unfold pd.to_excel. cbn [head app]. by rewrite Hc.
Qed.

(** X12.  The rows of a clean table are rows of the source, in source
    order. *)
Lemma clean_rows_in_order r ft w d r' w' :
  heap w !! r = Some d →
  process_file (Some r) ft w = (Returned (Some r'), w') →
  ∃ out, heap w' !! r' = Some out ∧ df_index out `sublist_of` df_index d.
Proof.
  intros Hd Hrun.
  destruct (process_file_returns _ _ _ _ _ _ Hd Hrun)
    as (a1 & a2 & a3 & a4 & a5 & Hres & -> & -> & Hout).
  exists (clean_table d a1 a2 a3 a4 a5). split; [done|].
  apply keep_sublist.
Qed.

(** C5.  On [duplicate_report] the clean table has seven columns, Party
    Name twice, and so has the sheet written from it: trimming merged
    two labels of the source. *)
Theorem duplicate_labels_give_seven_columns :
  ∃ w' out,
    process_file (Some 0) "Purchase" duplicate_world = (Returned (Some 3), w')
    ∧ heap w' !! 3 = Some out
    ∧ pd.columns out
      = Text <$> ["S/N"; "Date"; "Invoice No"; "Party Name"; "Party Name";
                  "Taxable Amount"; "GST Rate"]
    ∧ pd.columns out ≠ Text <$> clean_columns
    ∧ pd.to_excel out false
      = [ [Str "S/N"; Str "Date"; Str "Invoice No"; Str "Party Name";
           Str "Party Name"; Str "Taxable Amount"; Str "GST Rate"];
          [Int 1; Str "2024-01-01"; Str "INV001"; Str "Acme Co"; Str "Acme";
           Int 1000; Str "18%"];
          [Int 2; Str "2024-01-02"; Str "INV002"; Str "Bolt"; Str "Bolt Ltd";
           Int 250; Str "5%"] ].
Proof.
  eexists _, _. split; [vm_compute; reflexivity|].
  split; [reflexivity|]. split; [reflexivity|]. split; [discriminate|].
  reflexivity.
Qed.

(** * Further properties of [process_file] *)

Lemma body_fields d a1 a2 a3 a4 a5 values :
  let mask := kept_rows d a3 a4 in
  pd.labelled "Date" (clean_body d a1 a2 a3 a4 a5 values)
  = tagged "Date" (pd.keep mask <$> source_cells d a1)
  ∧ pd.labelled "Invoice No" (clean_body d a1 a2 a3 a4 a5 values)
    = tagged "Invoice No" (pd.keep mask <$> source_cells d a2)
  ∧ pd.labelled "Party Name" (clean_body d a1 a2 a3 a4 a5 values)
    = tagged "Party Name" (pd.keep mask <$> source_cells d a3)
  ∧ pd.labelled "Taxable Amount" (clean_body d a1 a2 a3 a4 a5 values)
    = tagged "Taxable Amount" (pd.keep mask <$> source_cells d a4).
Proof.
  intros mask. unfold clean_body. fold mask. rewrite !labelled_app.
  split_and!.
  - rewrite labelled_tagged_eq.
    rewrite !(labelled_tagged_ne "Date") by done. by rewrite !app_nil_r.
  - rewrite labelled_tagged_eq.
    rewrite !(labelled_tagged_ne "Invoice No") by done. by rewrite !app_nil_r.
  - rewrite labelled_tagged_eq.
    rewrite !(labelled_tagged_ne "Party Name") by done. by rewrite !app_nil_r.
  - rewrite labelled_tagged_eq.
    rewrite !(labelled_tagged_ne "Taxable Amount") by done.
    by rewrite !app_nil_r.
Qed.

(** X1.  [process_file] changes no value of Date, Invoice No, Party Name
    and Taxable Amount: each of these columns of the clean table holds
    the cells of the column resolved for it, for the kept rows, as they
    were in the source. *)
Theorem other_fields_unchanged r ft w d r' w' :
  heap w !! r = Some d →
  process_file (Some r) ft w = (Returned (Some r'), w') →
  ∃ out a_date a_invoice a_party a_taxable,
    heap w' !! r' = Some out
    ∧ found_in d ["Invoice Date"; "Invoice date"] a_date
    ∧ found_in d ["Invoice No."; "Invoice Number"; "Voucher No."] a_invoice
    ∧ found_in d ["Party Name"; "Receiver Name"] a_party
    ∧ found_in d ["Taxable value"; "Taxable Value"] a_taxable
    ∧ let kept := kept_rows d a_party a_taxable in
      (pd.labelled "Date" (df_data out)).*2
      = pd.keep kept <$> source_cells d a_date
      ∧ (pd.labelled "Invoice No" (df_data out)).*2
        = pd.keep kept <$> source_cells d a_invoice
      ∧ (pd.labelled "Party Name" (df_data out)).*2
        = pd.keep kept <$> source_cells d a_party
      ∧ (pd.labelled "Taxable Amount" (df_data out)).*2
        = pd.keep kept <$> source_cells d a_taxable.
Proof.
  intros Hd Hrun.
  destruct (process_file_returns _ _ _ _ _ _ Hd Hrun)
    as (a1 & a2 & a3 & a4 & a5 & Hres & -> & -> & Hout).
  exists (clean_table d a1 a2 a3 a4 a5), a1, a2, a3, a4.
  split_and!; [done|apply Hres..|]. intros kept.
  unfold clean_table. cbn [df_data].
  rewrite !labelled_cons_ne by done.
  destruct (body_fields d a1 a2 a3 a4 a5
              (fmap (M := list) percent
                 <$> (pd.keep (kept_rows d a3 a4) <$> source_cells d a5)))
    as (-> & -> & -> & ->).
  by rewrite !tagged_cells.
Qed.

Lemma other_fields_unchanged_witness :
  heap caller_world !! 0 = Some purchase_report
  ∧ process_file (Some 0) "Purchase" caller_world
    = (Returned (Some 3), (process_file (Some 0) "Purchase" caller_world).2)
  ∧ ∃ out,
      heap (process_file (Some 0) "Purchase" caller_world).2 !! 3 = Some out
      ∧ (pd.labelled "Taxable Amount" (df_data out)).*2 = [[Int 1000; Int 75]].
Proof.
  split; [reflexivity|]. split; [vm_compute; reflexivity|].
  destruct (other_fields_unchanged 0 "Purchase" caller_world purchase_report 3
              (process_file (Some 0) "Purchase" caller_world).2)
    as (out & a1 & a2 & a3 & a4 & Ho & _ & _ & Hp & Ht & _ & _ & _ & Hv).
  - reflexivity.
  - vm_compute; reflexivity.
  - unfold found_in in Hp, Ht.
    vm_compute in Hp. vm_compute in Ht.
    injection Hp as <-. injection Ht as <-.
    exists out. split; [exact Ho|exact Hv].
Defined.

Lemma row_complete_true cs i col c :
  pd.row_complete cs i = true → col ∈ cs → col !! i = Some c → isna c = false.
Proof.
  unfold pd.row_complete. rewrite forallb_forall.
  intros Hall Hin Hc. apply list_elem_of_In in Hin.
  specialize (Hall col Hin). rewrite Hc in Hall. by destruct (isna c).
Qed.

(** X2.  No row of a clean table lacks its Party Name or its Taxable
    Amount: every cell of these two columns is a present value. *)
Theorem required_fields_present r ft w d r' w' :
  heap w !! r = Some d →
  process_file (Some r) ft w = (Returned (Some r'), w') →
  ∃ out,
    heap w' !! r' = Some out
    ∧ ∀ label col i v,
        label = "Party Name" ∨ label = "Taxable Amount" →
        (Text label, col) ∈ df_data out →
        col !! i = Some v →
        isna v = false.
Proof.
  intros Hd Hrun.
  destruct (process_file_returns _ _ _ _ _ _ Hd Hrun)
    as (a1 & a2 & a3 & a4 & a5 & Hres & -> & -> & Hout).
  exists (clean_table d a1 a2 a3 a4 a5). split; [done|].
  intros label col i v Hlabel Hin Hv.
  assert (∃ src, src ∈ source_cells d a3 ++ source_cells d a4
                 ∧ col = pd.keep (kept_rows d a3 a4) src) as (src & Hsrc & ->).
  { unfold clean_table, clean_body in Hin. cbn [df_data] in Hin.
    apply elem_of_cons in Hin as [[= -> _]|Hin]; [by destruct Hlabel|].
    rewrite !elem_of_app, !elem_of_tagged in Hin.
    destruct Hin as [[[= ->] _]|[[[= ->] _]|[[_ Hc]|[[_ Hc]|[[= ->] _]]]]].
    1,2,5: by destruct Hlabel.
    all: apply list_elem_of_fmap in Hc as (src & -> & Hc).
    all: exists src; split; [|done]; apply elem_of_app; tauto. }
  destruct (keep_from_source _ _ _ _ Hv) as (j & Hj & _ & Hsj).
  pose proof (lookup_lt_Some _ _ _ Hj) as Hlt.
  rewrite kept_rows_length in Hlt.
  rewrite kept_rows_lookup in Hj by done. injection Hj as Hj.
  by eapply row_complete_true.
Qed.

Lemma required_fields_present_witness :
  heap caller_world !! 0 = Some purchase_report
  ∧ process_file (Some 0) "Purchase" caller_world
    = (Returned (Some 3), (process_file (Some 0) "Purchase" caller_world).2)
  ∧ ∃ out,
      heap (process_file (Some 0) "Purchase" caller_world).2 !! 3 = Some out
      ∧ ∀ col i v, (Text "Party Name", col) ∈ df_data out →
          col !! i = Some v → isna v = false.
Proof.
  split; [reflexivity|]. split; [vm_compute; reflexivity|].
  destruct (required_fields_present 0 "Purchase" caller_world purchase_report 3
              (process_file (Some 0) "Purchase" caller_world).2)
    as (out & Ho & H).
  - reflexivity.
  - vm_compute; reflexivity.
  - exists out. split; [exact Ho|].
    intros col i v. apply H. left. reflexivity.
Defined.

(** X3.  [process_file] keeps tables rectangular: when every column of
    the source has one cell per row, every column of the clean table,
    S/N included, has one cell per kept row. *)
Theorem clean_table_rectangular r ft w d r' w' :
  heap w !! r = Some d →
  rectangular d →
  process_file (Some r) ft w = (Returned (Some r'), w') →
  ∃ out, heap w' !! r' = Some out ∧ rectangular out.
Proof.
  intros Hd Hrect Hrun.
  destruct (process_file_returns _ _ _ _ _ _ Hd Hrun)
    as (a1 & a2 & a3 & a4 & a5 & Hres & -> & -> & Hout).
  exists (clean_table d a1 a2 a3 a4 a5). split; [done|].
  set (mask := kept_rows d a3 a4).
  assert (Hn : pd.len (clean_table d a1 a2 a3 a4 a5)
               = length (filter (λ b, b = true) mask)).
  { unfold pd.len, clean_table. cbn [df_index].
    apply keep_length, kept_rows_length. }
  assert (Hsrc : ∀ src, src ∈ (df_data d).*2 →
            length (pd.keep mask src) = length (filter (λ b, b = true) mask)).
  { intros src (c & -> & Hc)%list_elem_of_fmap.
    apply keep_length. subst mask. rewrite kept_rows_length.
    symmetry. by eapply Forall_forall in Hrect. }
  apply Forall_forall. intros [label col] Hin. cbn [snd]. rewrite Hn.
  destruct (decide (label = Text "S/N")) as [->|Hne].
  - unfold clean_table in Hin. cbn [df_data] in Hin.
    apply elem_of_cons in Hin as [[= ->]|Hin].
    + unfold pd.range. rewrite length_fmap, length_seq.
      fold mask. rewrite keep_length by apply kept_rows_length. lia.
    + destruct (body_columns d a1 a2 a3 a4 a5
                  (fmap (M := list) percent
                     <$> (pd.keep (kept_rows d a3 a4) <$> source_cells d a5))).
      unfold pd.columns, body_table. cbn [df_data].
      apply list_elem_of_fmap. by exists (Text "S/N", col).
  - destruct (clean_table_columns _ _ _ _ _ _ _ _ Hin Hne)
      as (src & Hsrc' & [->| ->]); rewrite ?length_fmap; by apply Hsrc.
Qed.

Lemma clean_table_rectangular_witness :
  heap caller_world !! 0 = Some purchase_report
  ∧ rectangular purchase_report
  ∧ process_file (Some 0) "Purchase" caller_world
    = (Returned (Some 3), (process_file (Some 0) "Purchase" caller_world).2)
  ∧ ∃ out,
      heap (process_file (Some 0) "Purchase" caller_world).2 !! 3 = Some out
      ∧ rectangular out.
Proof.
  assert (Hr : rectangular purchase_report).
  { unfold rectangular. simpl. repeat constructor. }
  split; [reflexivity|]. split; [exact Hr|].
  split; [vm_compute; reflexivity|].
  apply (clean_table_rectangular 0 "Purchase" caller_world purchase_report 3
           (process_file (Some 0) "Purchase" caller_world).2).
  - reflexivity.
  - exact Hr.
  - vm_compute; reflexivity.
Defined.

(** * The clean table as a function of the source *)

(** The runs of [process_file], by what the detection loop finds. *)
Lemma process_file_processed r ft w d :
  heap w !! r = Some d →
  pd.has_text d = true →
  match resolve (pd.columns (pd.strip_columns d)) col_map ∅ with
  | inr _ =>
      ∃ a1 a2 a3 a4 a5,
        Resolved d a1 a2 a3 a4 a5
        ∧ processed d = Some (clean_table d a1 a2 a3 a4 a5)
        ∧ process_file (Some r) ft w
          = (Returned (Some (S (S (length (heap w))))),
             {| heap := heap_after r d (heap w) a1 a2 a3 a4 a5;
                page := page w |})
  | inl sn =>
      processed d = None
      ∧ process_file (Some r) ft w
        = (Returned None,
           after_detection r d w [Error (missing_column_message ft sn)])
  end.
Proof.
  intros Hd Ht. unfold processed.
  destruct (resolve_cases (pd.columns (pd.strip_columns d)))
    as [(a1 & a2 & a3 & a4 & a5 & H1 & H2 & H3 & H4 & H5 & Hr)
       |(i & sn & pn & _ & _ & _ & Hr)]; rewrite Hr.
  - exists a1, a2, a3, a4, a5.
    assert (Resolved d a1 a2 a3 a4 a5) by (by constructor).
    split; [done|]. split; [|by apply process_file_found].
    by destruct (found_dict_lookup a1 a2 a3 a4 a5) as (-> & -> & -> & -> & ->).
  - split; [done|]. by apply process_file_missing.
Qed.

Lemma columns_source_cells d a :
  Text a ∈ pd.columns (pd.strip_columns d) ↔ source_cells d a ≠ [].
Proof.
  split; [apply source_cells_nonempty|].
  intros Hne.
  destruct (decide (Text a ∈ pd.columns (pd.strip_columns d))) as [|Hn];
    [done|].
  exfalso. apply Hne. unfold source_cells.
  by rewrite labelled_absent.
Qed.

Lemma first_present_ext names cols1 cols2 :
  (∀ a, a ∈ names → Text a ∈ cols1 ↔ Text a ∈ cols2) →
  first_present names cols1 = first_present names cols2.
Proof.
  unfold first_present. induction names as [|n names IH]; [done|].
  intros H. rewrite !filter_cons.
  assert (Text n ∈ cols1 ↔ Text n ∈ cols2) as Hn by (apply H; left).
  assert (head (filter (λ col, Text col ∈ cols1) names)
          = head (filter (λ col, Text col ∈ cols2) names)) as Htl.
  { apply IH. intros a Ha. apply H. by right. }
  destruct (decide (Text n ∈ cols1)), (decide (Text n ∈ cols2)); tauto || done.
Qed.

Lemma resolve_ext cols1 cols2 items found :
  (∀ a, a ∈ items ≫= snd → Text a ∈ cols1 ↔ Text a ∈ cols2) →
  resolve cols1 items found = resolve cols2 items found.
Proof.
  revert found. induction items as [|[sn pn] items IH]; intros found H; [done|].
  rewrite !resolve_cons.
  rewrite (first_present_ext pn cols1 cols2).
  2:{ intros a Ha. apply H. change (a ∈ pn ++ (items ≫= snd)).
      apply elem_of_app. by left. }
  destruct (first_present pn cols2) as [col|]; [|done].
  destruct (PyStr.truthy col); [|done].
  apply IH. intros a Ha. apply H. change (a ∈ pn ++ (items ≫= snd)).
  apply elem_of_app. by right.
Qed.

Lemma clean_table_ext d1 d2 a1 a2 a3 a4 a5 :
  df_index d1 = df_index d2 →
  Forall (λ a, source_cells d1 a = source_cells d2 a) [a1; a2; a3; a4; a5] →
  clean_table d1 a1 a2 a3 a4 a5 = clean_table d2 a1 a2 a3 a4 a5.
Proof.
  intros Hi Hall. rewrite !Forall_cons in Hall.
  destruct Hall as (E1 & E2 & E3 & E4 & E5 & _).
  unfold clean_table, clean_body, kept_rows, pd.len.
  by rewrite Hi, E1, E2, E3, E4, E5.
Qed.

Lemma Resolved_aliases d a1 a2 a3 a4 a5 :
  Resolved d a1 a2 a3 a4 a5 →
  Forall (λ a, a ∈ alias_labels) [a1; a2; a3; a4; a5].
Proof.
  intros H.
  destruct (resolved_cases _ _ _ _ _ _ H)
    as ([->| ->] & [->|[->| ->]] & [->| ->] & [->| ->] & ->).
  all: repeat constructor; unfold alias_labels; simpl; set_unfold; tauto.
Qed.

Lemma resolve_alias_ext d1 d2 :
  Forall (λ a, source_cells d1 a = source_cells d2 a) alias_labels →
  resolve (pd.columns (pd.strip_columns d1)) col_map ∅
  = resolve (pd.columns (pd.strip_columns d2)) col_map ∅.
Proof.
  rewrite Forall_forall. intros Hall.
  apply resolve_ext. intros a Ha. rewrite !columns_source_cells.
  by rewrite (Hall a Ha).
Qed.

Lemma processed_ext d1 d2 :
  df_index d1 = df_index d2 →
  Forall (λ a, source_cells d1 a = source_cells d2 a) alias_labels →
  processed d1 = processed d2.
Proof.
  intros Hi Hall. unfold processed. rewrite <- (resolve_alias_ext d1 d2 Hall).
  destruct (resolve_cases (pd.columns (pd.strip_columns d1)))
    as [(a1 & a2 & a3 & a4 & a5 & H1 & H2 & H3 & H4 & H5 & ->)
       |(i & sn & pn & _ & _ & _ & ->)]; [|done].
  destruct (found_dict_lookup a1 a2 a3 a4 a5) as (-> & -> & -> & -> & ->).
  simpl. f_equal. apply clean_table_ext; [done|].
  rewrite Forall_forall in Hall. eapply Forall_impl.
  - apply (Resolved_aliases d1). by constructor.
  - intros a Ha. by apply Hall.
Qed.

(** X4.  [process_file] reads nothing but the columns whose trimmed
    label is an alias of [col_map], and the row index: two tables with a
    text label that agree on these give the same clean table (or both
    none), whatever their other columns, the order of their columns, the
    blanks around their labels and the file type passed. *)
Theorem process_file_reads_alias_columns r1 r2 ft1 ft2 w1 w2 d1 d2 :
  heap w1 !! r1 = Some d1 →
  heap w2 !! r2 = Some d2 →
  pd.has_text d1 = true →
  pd.has_text d2 = true →
  df_index d1 = df_index d2 →
  Forall (λ a, source_cells d1 a = source_cells d2 a) alias_labels →
  ∃ o1 w1' o2 w2',
    process_file (Some r1) ft1 w1 = (Returned o1, w1')
    ∧ process_file (Some r2) ft2 w2 = (Returned o2, w2')
    ∧ table_of w1' o1 = table_of w2' o2.
Proof.
  intros H1 H2 T1 T2 Hi Hall.
  pose proof (process_file_processed r1 ft1 w1 d1 H1 T1) as P1.
  pose proof (process_file_processed r2 ft2 w2 d2 H2 T2) as P2.
  pose proof (processed_ext d1 d2 Hi Hall) as Heq.
  rewrite <- (resolve_alias_ext d1 d2 Hall) in P2.
  destruct (resolve _ col_map ∅) as [sn|fc].
  - destruct P1 as (_ & ->). destruct P2 as (_ & ->).
    by eexists _, _, _, _.
  - destruct P1 as (a1 & a2 & a3 & a4 & a5 & _ & E1 & ->).
    destruct P2 as (b1 & b2 & b3 & b4 & b5 & _ & E2 & ->).
    eexists _, _, _, _. split; [done|]. split; [done|].
    unfold table_of. cbn [mbind option_bind heap].
    rewrite !heap_after_result. congruence.
Qed.

Lemma process_file_reads_alias_columns_witness :
  heap caller_world !! 0 = Some purchase_report
  ∧ heap reordered_world !! 0 = Some reordered_report
  ∧ Forall (λ a, source_cells purchase_report a = source_cells reordered_report a)
      alias_labels
  ∧ ∃ o1 w1' o2 w2',
      process_file (Some 0) "Purchase" caller_world = (Returned o1, w1')
      ∧ process_file (Some 0) "Sales" reordered_world = (Returned o2, w2')
      ∧ table_of w1' o1 = table_of w2' o2.
Proof.
  assert (Hall : Forall (λ a, source_cells purchase_report a
                              = source_cells reordered_report a) alias_labels).
  { unfold alias_labels. simpl. repeat constructor. }
  split; [reflexivity|]. split; [reflexivity|]. split; [exact Hall|].
  apply (process_file_reads_alias_columns 0 0 "Purchase" "Sales"
           caller_world reordered_world purchase_report reordered_report).
  - reflexivity.
  - reflexivity.
  - reflexivity.
  - reflexivity.
  - reflexivity.
  - exact Hall.
Defined.

(** X5.  The labels of a clean table are S/N, then Date, Invoice No,
    Party Name, Taxable Amount and GST Rate, each as many times (once at
    least) as the source has columns under the alias found for it. *)
Theorem clean_columns_shape r ft w d r' w' :
  heap w !! r = Some d →
  process_file (Some r) ft w = (Returned (Some r'), w') →
  ∃ out a1 a2 a3 a4 a5,
    heap w' !! r' = Some out
    ∧ Resolved d a1 a2 a3 a4 a5
    ∧ Forall (λ a, 1 ≤ length (source_cells d a)) [a1; a2; a3; a4; a5]
    ∧ pd.columns out
      = Text "S/N" :: replicate (length (source_cells d a1)) (Text "Date")
          ++ replicate (length (source_cells d a2)) (Text "Invoice No")
          ++ replicate (length (source_cells d a3)) (Text "Party Name")
          ++ replicate (length (source_cells d a4)) (Text "Taxable Amount")
          ++ replicate (length (source_cells d a5)) (Text "GST Rate").
Proof.
  intros Hd Hrun.
  destruct (process_file_returns _ _ _ _ _ _ Hd Hrun)
    as (a1 & a2 & a3 & a4 & a5 & Hres & -> & -> & Hout).
  exists (clean_table d a1 a2 a3 a4 a5), a1, a2, a3, a4, a5.
  split; [done|]. split; [done|]. split.
  - eapply Forall_impl; [by apply resolved_present|]. intros a Ha. cbv beta in Ha.
    apply source_cells_nonempty in Ha.
    destruct (source_cells d a); [done|simpl; lia].
  - unfold pd.columns, clean_table, clean_body. cbn [df_data].
    rewrite fmap_cons, !fmap_app, !tagged_labels, !length_fmap. done.
Qed.

Lemma clean_columns_shape_witness :
  heap duplicate_world !! 0 = Some duplicate_report
  ∧ process_file (Some 0) "Purchase" duplicate_world
    = (Returned (Some 3), (process_file (Some 0) "Purchase" duplicate_world).2)
  ∧ ∃ out,
      heap (process_file (Some 0) "Purchase" duplicate_world).2 !! 3 = Some out
      ∧ head (pd.columns out) = Some (Text "S/N")
      ∧ 6 ≤ length (pd.columns out).
Proof.
  split; [reflexivity|]. split; [vm_compute; reflexivity|].
  destruct (clean_columns_shape 0 "Purchase" duplicate_world duplicate_report 3
              (process_file (Some 0) "Purchase" duplicate_world).2)
    as (out & a1 & a2 & a3 & a4 & a5 & Ho & _ & Hn & Hc).
  - reflexivity.
  - vm_compute; reflexivity.
  - exists out. split; [exact Ho|]. rewrite Hc. split; [reflexivity|].
    rewrite !Forall_cons in Hn. destruct Hn as (N1 & N2 & N3 & N4 & N5 & _).
    cbn [length]. rewrite !length_app, !length_replicate. lia.
Defined.

(** X6.  [process_file] raises nothing but the [AttributeError] of line
    74, and that only for a table without a text label, before it has
    changed or shown anything.  Given no table it returns none and
    touches nothing; given a table with a text label it returns none or
    a new object, and removes no object and no message. *)
Theorem process_file_outcomes o ft w :
  live w o →
  (o = None → process_file o ft w = (Returned None, w))
  ∧ (∀ r d, o = Some r → heap w !! r = Some d → pd.has_text d = true →
       ∃ o' w',
         process_file o ft w = (Returned o', w')
         ∧ page w `prefix_of` page w'
         ∧ length (heap w) ≤ length (heap w')
         ∧ ∀ r', o' = Some r' → length (heap w) ≤ r' < length (heap w'))
  ∧ (∀ e w', process_file o ft w = (Raised e, w') →
       e = AttributeError "Can only use .str accessor with string values!"
       ∧ w' = w
       ∧ ∃ r d, o = Some r ∧ heap w !! r = Some d ∧ pd.has_text d = false).
Proof.
  intros Hlive. split; [by intros ->|]. split.
  - intros r d -> Hd Ht.
    destruct (resolution_outcome r ft w d Hd Ht)
      as [(a1 & a2 & a3 & a4 & a5 & _ & ->)|(_ & sn & ->)].
    + eexists _, _. split; [done|]. cbn [heap page].
      rewrite heap_after_length. split_and!; [done|lia|].
      intros r' [= <-]. lia.
    + eexists _, _. split; [done|]. unfold after_detection. cbn [heap page].
      rewrite length_insert. split_and!; [by eexists|done|done].
  - intros e w' Hrun. destruct o as [r|]; [|done].
    destruct (lookup_lt_is_Some_2 (heap w) r (Hlive r eq_refl)) as [d Hd].
    destruct (pd.has_text d) eqn:Ht.
    + destruct (resolution_outcome r ft w d Hd Ht)
        as [(a1 & a2 & a3 & a4 & a5 & _ & Hp)|(_ & sn & Hp)];
        by rewrite Hp in Hrun.
    + rewrite (process_file_raises _ _ _ _ Hd Ht) in Hrun.
      injection Hrun as <- <-. split_and!; [done|done|by exists r, d].
Qed.

Lemma process_file_outcomes_witness :
  live numeric_world (Some 0)
  ∧ (∀ e w', process_file (Some 0) "Purchase" numeric_world = (Raised e, w') →
       e = AttributeError "Can only use .str accessor with string values!"
       ∧ w' = numeric_world)
  ∧ ∃ o' w', process_file (Some 0) "Purchase" caller_world = (Returned o', w').
Proof.
  assert (Hn : live numeric_world (Some 0)).
  { intros r [= <-]. simpl. lia. }
  assert (Hc : live caller_world (Some 0)).
  { intros r [= <-]. simpl. lia. }
  split; [exact Hn|]. split.
  - intros e w' Hrun.
    destruct (process_file_outcomes (Some 0) "Purchase" numeric_world Hn)
      as (_ & _ & H).
    destruct (H e w' Hrun) as (He & Hw & _). split; [exact He|exact Hw].
  - destruct (process_file_outcomes (Some 0) "Purchase" caller_world Hc)
      as (_ & H & _).
    destruct (H 0 purchase_report eq_refl eq_refl eq_refl)
      as (o' & w' & Hrun & _).
    exists o', w'. exact Hrun.
Defined.

Lemma clean_columns_distinct_witness :
  heap caller_world !! 0 = Some purchase_report
  ∧ NoDup (PyStr.strip <$> pd.texts purchase_report)
  ∧ ∃ out,
      heap (process_file (Some 0) "Purchase" caller_world).2 !! 3 = Some out
      ∧ pd.columns out = Text <$> clean_columns
      ∧ head (pd.to_excel out false) = Some (Str <$> clean_columns).
Proof.
  assert (Hnd : NoDup (PyStr.strip <$> pd.texts purchase_report)).
  { apply (bool_decide_unpack (NoDup _)). vm_compute. exact I. }
  split; [reflexivity|]. split; [exact Hnd|].
  apply (clean_columns_distinct 0 "Purchase" caller_world purchase_report).
  - reflexivity.
  - exact Hnd.
  - vm_compute; reflexivity.
Defined.

Lemma clean_rows_in_order_witness :
  heap caller_world !! 0 = Some purchase_report
  ∧ ∃ out,
      heap (process_file (Some 0) "Purchase" caller_world).2 !! 3 = Some out
      ∧ df_index out `sublist_of` [0; 1; 2].
Proof.
  split; [reflexivity|].
  apply (clean_rows_in_order 0 "Purchase" caller_world purchase_report).
  - reflexivity.
  - vm_compute; reflexivity.
Defined.

(** ** Loading and the button handler *)

Lemma bind_raise {A B} (m : Py A) (k : A → Py B) w e w' :
  m w = (Raised e, w') → (m ≫= k) w = (Raised e, w').
Proof. unfold mbind, Py_bind. by intros ->. Qed.

Lemma table_of_Some w (r : nat) : table_of w (Some r) = heap w !! r.
Proof. done. Qed.




(** What a call of [process_file] that line 74 lets through does to the
    world around its argument. *)
Lemma process_file_effect o ft w :
  live w o →
  refused (table_of w o) = false →
  ∃ o' w',
    process_file o ft w = (Returned o', w')
    ∧ page w' = page w ++ column_errors ft (table_of w o)
    ∧ table_of w' o' = table_of w o ≫= processed
    ∧ (∀ i, i < length (heap w) → o ≠ Some i → heap w' !! i = heap w !! i)
    ∧ length (heap w) ≤ length (heap w')
    ∧ live w' o'
    ∧ (∀ r', o' = Some r' → length (heap w) ≤ r').
Proof.
  intros Hlive. destruct o as [r|].
  2:{ intros _. exists None, w. cbn [table_of mbind option_bind column_errors].
      rewrite app_nil_r. split_and!; done. }
  destruct (lookup_lt_is_Some_2 (heap w) r (Hlive r eq_refl)) as [d Hd].
  assert (table_of w (Some r) = Some d) as -> by exact Hd.
  cbn [refused]. intros Ht%negb_false_iff.
  pose proof (process_file_processed r ft w d Hd Ht) as Hp.
  cbn [mbind option_bind column_errors].
  destruct (resolve _ col_map ∅) as [sn|fc].
  - destruct Hp as (-> & ->).
    eexists _, _. split; [done|]. unfold after_detection. cbn [heap page].
    rewrite length_insert. split_and!; [done|done| |done|done|done].
    intros i Hi Hne. apply list_lookup_insert_ne. intros ->. by apply Hne.
  - destruct Hp as (a1 & a2 & a3 & a4 & a5 & _ & -> & ->).
    eexists _, _. split; [done|]. cbn [heap page].
    rewrite app_nil_r, table_of_Some, heap_after_length. cbn [heap].
    split_and!; [done| | |lia| |].
    + apply heap_after_result.
    + intros i Hi Hne. rewrite heap_after_old by done.
      apply list_lookup_insert_ne. intros ->. by apply Hne.
    + intros r' [= <-]. cbn [heap]. rewrite heap_after_length. lia.
    + intros r' [= <-]. lia.
Qed.






Section Handler.
Variable read_csv : UploadedFile → nat → PyExn + DataFrame.
Variable read_excel : UploadedFile → nat → string → PyExn + DataFrame.
Variable excel_refuses : DataFrame → option PyExn.

Lemma load_data_run f w :
  load_data read_csv read_excel (Some f) w =
    match reading read_csv read_excel f with
    | Some (inr d) =>
        (Returned (Some (length (heap w))),
         {| heap := heap w ++ [d]; page := page w |})
    | Some (inl e) =>
        (Returned None,
         {| heap := heap w;
            page := page w
                    ++ [Error (read_error_message (name f) (exn_str e))] |})
    | None => (Returned None, w)
    end.
Proof.
  unfold load_data, reading, try_except.
  destruct (PyStr.endswith (name f) ".csv").
  - by destruct (read_csv f 8).
  - destruct (PyStr.endswith (name f) ".xls" || PyStr.endswith (name f) ".xlsx").
    + by destruct (read_excel f 8 "openpyxl").
    + done.
Qed.

(** What a call of [load_data] does to the world. *)
Lemma load_data_effect f w :
  ∃ o w',
    load_data read_csv read_excel (Some f) w = (Returned o, w')
    ∧ page w' = page w ++ read_errors read_csv read_excel f
    ∧ table_of w' o = loaded read_csv read_excel f
    ∧ (∀ i, i < length (heap w) → heap w' !! i = heap w !! i)
    ∧ length (heap w) ≤ length (heap w')
    ∧ live w' o
    ∧ (∀ r, o = Some r → length (heap w) ≤ r).
Proof.
  rewrite load_data_run. unfold loaded, read_errors.
  destruct (reading read_csv read_excel f) as [[e|d]|].
  - eexists _, _. split; [done|]. cbn [heap page]. split_and!; done.
  - eexists _, _. split; [done|]. cbn [heap page].
    rewrite app_nil_r, table_of_Some, length_app. cbn [heap].
    split_and!; [done| | |lia| |].
    + apply lookup_last.
    + intros i Hi. by rewrite lookup_app_l.
    + intros r [= <-]. cbn [heap]. rewrite length_app. simpl. lia.
    + intros r [= <-]. lia.
  - exists None, w. rewrite app_nil_r. split_and!; done.
Qed.






(** X13.  A reader that raises: the error carries the file name and the
    cause, and no table is returned. *)
Lemma load_data_reader_raises f w e :
  reading read_csv read_excel f = Some (inl e) →
  load_data read_csv read_excel (Some f) w
  = (Returned None,
     {| heap := heap w;
        page := page w
                ++ [Error ("Error reading " +:+ name f +:+ ": " +:+ exn_str e
                           +:+ ". Please ensure it is a valid file with data starting after row 8.")] |}).
Proof. intros H. by rewrite load_data_run, H. Qed.

(** X14.  A reader that returns: the table read with 8 rows skipped is a
    new object and nothing is shown. *)
Lemma load_data_reader_returns f w d :
  reading read_csv read_excel f = Some (inr d) →
  load_data read_csv read_excel (Some f) w
  = (Returned (Some (length (heap w))),
     {| heap := heap w ++ [d]; page := page w |}).
Proof. intros H. by rewrite load_data_run, H. Qed.

(** X7.  [load_data] raises nothing, whatever its reader does.  A
    returned table is a new object, read with the first 8 rows skipped,
    and nothing is shown; without a table the objects are as before and
    the page is as before or has one more error, which carries the file
    name and the text of what the reader raised. *)
Theorem load_data_never_raises uploaded w :
  ∃ o w',
    load_data read_csv read_excel uploaded w = (Returned o, w')
    ∧ match o with
      | Some r =>
          ∃ f d, uploaded = Some f
                 ∧ (read_csv f 8 = inr d ∨ read_excel f 8 "openpyxl" = inr d)
                 ∧ r = length (heap w)
                 ∧ heap w' = heap w ++ [d]
                 ∧ page w' = page w
      | None =>
          heap w' = heap w
          ∧ (page w' = page w
             ∨ ∃ f e,
                 uploaded = Some f
                 ∧ (read_csv f 8 = inl e ∨ read_excel f 8 "openpyxl" = inl e)
                 ∧ page w'
                   = page w ++ [Error (read_error_message (name f) (exn_str e))])
      end.
Proof.
  destruct uploaded as [f|].
  2:{ exists None, w. split; [done|]. split; [done|]. by left. }
  rewrite load_data_run.
  assert (Hread : ∀ x, reading read_csv read_excel f = Some x →
            read_csv f 8 = x ∨ read_excel f 8 "openpyxl" = x).
  { intros x. unfold reading.
    destruct (PyStr.endswith (name f) ".csv"); [left; congruence|].
    destruct (PyStr.endswith (name f) ".xls" || PyStr.endswith (name f) ".xlsx");
      [right; congruence|done]. }
  destruct (reading read_csv read_excel f) as [[e|d]|].
  - eexists _, _. split; [done|]. cbn [heap page]. split; [done|].
    right. exists f, e. split_and!; [done|by apply Hread|done].
  - eexists _, _. split; [done|]. cbn [heap page].
    exists f, d. split_and!; [done|by apply Hread|done|done|done].
  - exists None, w. split; [done|]. split; [done|]. by left.
Qed.

(** X8.  Without both files the handler reads, processes and writes
    nothing: it shows the warning and returns. *)
Theorem on_click_needs_both_files purchase_file sales_file w :
  purchase_file = None ∨ sales_file = None →
  on_click read_csv read_excel excel_refuses purchase_file sales_file w
  = (Returned (),
     {| heap := heap w; page := page w ++ [Warning upload_both] |}).
Proof. intros [-> | ->]; [done|]. by destruct purchase_file. Qed.

(** C7.  For a file whose name ends in none of [.csv], [.xls] and
    [.xlsx], [load_data] returns [None] and shows nothing: no error
    with the file name and a cause reaches the page. *)
Theorem load_data_unrecognised f w :
  PyStr.endswith (name f) ".csv" = false →
  PyStr.endswith (name f) ".xls" = false →
  PyStr.endswith (name f) ".xlsx" = false →
  load_data read_csv read_excel (Some f) w = (Returned None, w).
Proof.
  intros H1 H2 H3. rewrite load_data_run. unfold reading.
  by rewrite H1, H2, H3.
Qed.

(** C6.  When the Purchase file has a name [load_data] does not
    recognise, the handler shows what the Sales pipeline shows and then
    only the closing message: the Purchase failure has no message of its
    own.  (When line 74 raises for the Sales table, which takes a Sales
    header without a text label, the handler raises with it, and the
    Purchase failure has no message either.) *)
Theorem unreported_purchase_failure fp fs w :
  PyStr.endswith (name fp) ".csv" = false →
  PyStr.endswith (name fp) ".xls" = false →
  PyStr.endswith (name fp) ".xlsx" = false →
  ∃ ds w2,
    load_data read_csv read_excel (Some fs) w = (Returned ds, w2)
    ∧ (∀ rs w4,
         process_file ds "Sales" w2 = (Returned rs, w4) →
         on_click read_csv read_excel excel_refuses (Some fp) (Some fs) w
         = (Returned (),
            {| heap := heap w4;
               page := page w4 ++ [Error processing_failed] |}))
    ∧ (∀ e w4,
         process_file ds "Sales" w2 = (Raised e, w4) →
         on_click read_csv read_excel excel_refuses (Some fp) (Some fs) w
         = (Raised e, w4))
    ∧ (refused (loaded read_csv read_excel fs) = false →
       ∃ rs w4, process_file ds "Sales" w2 = (Returned rs, w4)).
Proof.
  intros H1 H2 H3.
  assert (L1 : load_data read_csv read_excel (Some fp) w = (Returned None, w)).
  { rewrite load_data_run. unfold reading. by rewrite H1, H2, H3. }
  destruct (load_data_effect fs w)
    as (ds & w2 & L2 & _ & Htab & _ & _ & Hlive & _).
  exists ds, w2. split; [exact L2|].
  unfold on_click. cbn [bool_decide andb]. simpl.
  rewrite (bind_run _ _ _ _ _ L1), (bind_run _ _ _ _ _ L2).
  assert (P1 : process_file None "Purchase" w2 = (Returned None, w2)) by done.
  rewrite (bind_run _ _ _ _ _ P1).
  split_and!.
  - intros rs w4 P2. by rewrite (bind_run _ _ _ _ _ P2).
  - intros e w4 P2. by rewrite (bind_raise _ _ _ _ _ P2).
  - intros Hacc. rewrite <- Htab in Hacc.
    destruct (process_file_effect ds "Sales" w2 Hlive Hacc)
      as (rs & w4 & P2 & _).
    by exists rs, w4.
Qed.




End Handler.

Lemma load_data_unrecognised_witness :
  PyStr.endswith (name report_uppercase) ".csv" = false
  ∧ load_data sample_read_csv sample_read_excel (Some report_uppercase)
      caller_world
    = (Returned None, caller_world).
Proof.
  split; [reflexivity|].
  by apply (load_data_unrecognised sample_read_csv sample_read_excel
              report_uppercase caller_world).
Defined.

Lemma unreported_purchase_failure_witness :
  PyStr.endswith (name report_uppercase) ".csv" = false
  ∧ ∃ w',
      on_click sample_read_csv sample_read_excel accepting_writer
        (Some report_uppercase) (Some sales_file) {| heap := []; page := [] |}
      = (Returned (), w')
      ∧ page w' = [Error processing_failed].
Proof.
  split; [reflexivity|].
  destruct (unreported_purchase_failure sample_read_csv sample_read_excel
              accepting_writer report_uppercase sales_file
              {| heap := []; page := [] |})
    as (ds & w2 & L & Hret & _); [reflexivity..|].
  vm_compute in L. injection L as <- <-.
  set (w2 := {| heap := [purchase_report]; page := [] |}) in *.
  assert (P : process_file (Some 0) "Sales" w2
              = (Returned (Some 3), (process_file (Some 0) "Sales" w2).2)).
  { vm_compute. reflexivity. }
  eexists. split; [exact (Hret _ _ P)|]. vm_compute. reflexivity.
Defined.

Lemma on_click_needs_both_files_witness :
  on_click sample_read_csv sample_read_excel accepting_writer
    (Some sales_file) None {| heap := []; page := [] |}
  = (Returned (), {| heap := []; page := [Warning upload_both] |}).
Proof.
  apply (on_click_needs_both_files sample_read_csv sample_read_excel
           accepting_writer (Some sales_file) None {| heap := []; page := [] |}).
  right. reflexivity.
Defined.

Lemma load_data_reader_raises_witness :
  reading empty_read_csv sample_read_excel sales_file
  = Some (inl (Exn "EmptyDataError" "No columns to parse from file"))
  ∧ ∃ w',
      load_data empty_read_csv sample_read_excel (Some sales_file) caller_world
      = (Returned None, w')
      ∧ heap w' = [purchase_report]
      ∧ page w'
        = [Error "Error reading sales.csv: No columns to parse from file. Please ensure it is a valid file with data starting after row 8."].
Proof.
  split; [reflexivity|].
  eexists. split.
  - apply (load_data_reader_raises empty_read_csv sample_read_excel sales_file
             caller_world (Exn "EmptyDataError" "No columns to parse from file")).
    reflexivity.
  - split; reflexivity.
Defined.

Lemma load_data_reader_returns_witness :
  reading sample_read_csv sample_read_excel sales_file = Some (inr purchase_report)
  ∧ load_data sample_read_csv sample_read_excel (Some sales_file)
      {| heap := []; page := [] |}
    = (Returned (Some 0), {| heap := [purchase_report]; page := [] |}).
Proof.
  split; [reflexivity|].
  apply (load_data_reader_returns sample_read_csv sample_read_excel sales_file
           {| heap := []; page := [] |} purchase_report).
  reflexivity.
Defined.
